(** * Scones Unlimited ML workflow: the three Lambda stages

    A shallow embedding of [lambda/SerializeImageData.py] (the Loader),
    [lambda/Classifier.py] (the Classifier) and [lambda/FilterConfidence.py]
    (the Gate).  Each file defines one function, [lambda_handler]; the three
    live here in three modules named after their files.

    Python values are a small universe [pyval]; a handler run ends in an
    [outcome]: a returned value or a raised exception.  The external
    capabilities (the S3 store, the SageMaker endpoint, [json.dumps]) are
    arguments of the handlers. *)

From Stdlib Require Import ZArith NArith List String Ascii Bool Lia Floats.
From Stdlib.Strings Require Import Byte.
Import ListNotations.

#[local] Set Warnings "-inexact-float,-register-all".
Local Open Scope string_scope.

(** ** Python values, exceptions and outcomes *)

Module Py.

(** What [json.loads] can produce, plus [bytes]. A [dict] keeps its insertion
    order and is keyed by [str]; its keys are pairwise distinct. *)
Inductive pyval : Type :=
| PyNone
| PyBool (b : bool)
| PyInt (z : Z)
| PyFloat (f : float)
| PyStr (s : string)
| PyBytes (b : list byte)
| PyList (l : list pyval)
| PyDict (d : list (string * pyval)).

(** The exception classes the three handlers can end in.  [BinasciiError] is
    [binascii.Error]; [ClientError] is botocore's; [External] stands for any
    other exception a capability raises, by class name. *)
Inductive exn : Type :=
| KeyError (key : string)
| TypeError
| ValueError
| BinasciiError
| FileNotFoundError
| ClientError (code : string)
| External (name : string).

(** A run returns, raises, or leaves the fragment of Python modelled here
    ([Beyond]: ordering two values neither of which is a number, iterating
    over a [str], [bytes] or [dict]). *)
Inductive outcome (A : Type) : Type :=
| Returns (a : A)
| Raises (e : exn)
| Beyond.

Arguments Returns {A} a.
Arguments Raises {A} e.
Arguments Beyond {A}.

Definition bind {A B : Type} (c : outcome A) (k : A -> outcome B) : outcome B :=
  match c with
  | Returns a => k a
  | Raises e => Raises e
  | Beyond => Beyond
  end.

Definition returned {A : Type} (c : outcome A) : bool :=
  match c with
  | Returns _ => true
  | _ => false
  end.

End Py.

Import Py.

Notation "x <- c ;; k" := (bind c (fun x => k))
  (at level 61, c at next level, right associativity).

(** *** Subscripting with a [str] key: [v[key]] and [v[key] = x] *)

Fixpoint lookup (key : string) (d : list (string * pyval)) : option pyval :=
  match d with
  | [] => None
  | (k, v) :: d' => if String.eqb k key then Some v else lookup key d'
  end.

Fixpoint store (key : string) (x : pyval) (d : list (string * pyval))
  : list (string * pyval) :=
  match d with
  | [] => [(key, x)]
  | (k, v) :: d' =>
      if String.eqb k key then (k, x) :: d' else (k, v) :: store key x d'
  end.

(** Only a [dict] can be subscripted with a [str]: a missing key is a
    [KeyError], every other receiver a [TypeError]. *)
Definition getitem (v : pyval) (key : string) : outcome pyval :=
  match v with
  | PyDict d =>
      match lookup key d with
      | Some x => Returns x
      | None => Raises (KeyError key)
      end
  | _ => Raises TypeError
  end.

Definition setitem (v : pyval) (key : string) (x : pyval) : outcome pyval :=
  match v with
  | PyDict d => Returns (PyDict (store key x d))
  | _ => Raises TypeError
  end.

(** *** Numbers and their ordering *)

(** A JSON number is an [int] or a [float] (binary64) in Python. *)
Inductive pynum : Type :=
| NumInt (z : Z)
| NumFloat (f : float).

Definition num_value (n : pynum) : pyval :=
  match n with
  | NumInt z => PyInt z
  | NumFloat f => PyFloat f
  end.

(** [bool] is a subclass of [int]. *)
Definition as_num (v : pyval) : option pynum :=
  match v with
  | PyBool b => Some (NumInt (if b then 1 else 0))
  | PyInt z => Some (NumInt z)
  | PyFloat f => Some (NumFloat f)
  | _ => None
  end.

(** The exact value of a float: [m * 2^e], an infinity or NaN. *)
Inductive xreal : Type :=
| XNaN
| XInf (negative : bool)
| XDyadic (m e : Z).

Definition xreal_of_float (f : float) : xreal :=
  match Prim2SF f with
  | S754_zero _ => XDyadic 0 0
  | S754_infinity s => XInf s
  | S754_nan => XNaN
  | S754_finite s m e => XDyadic (if s then Z.neg m else Z.pos m) e
  end.

Definition dyadic_gtb (m1 e1 m2 e2 : Z) : bool :=
  let e := Z.min e1 e2 in
  (m1 * 2 ^ (e1 - e) >? m2 * 2 ^ (e2 - e))%Z.

(** CPython compares an [int] with a [float] exactly, without rounding the
    [int] to a float. *)
Definition int_gt_float (z : Z) (f : float) : bool :=
  match xreal_of_float f with
  | XNaN => false
  | XInf negative => negative
  | XDyadic m e => dyadic_gtb z 0 m e
  end.

Definition float_gt_int (f : float) (z : Z) : bool :=
  match xreal_of_float f with
  | XNaN => false
  | XInf negative => negb negative
  | XDyadic m e => dyadic_gtb m e z 0
  end.

(** [a > b] on numbers; two floats compare as IEEE 754 has it, so any
    comparison with NaN is false. *)
Definition num_gt (a b : pynum) : bool :=
  match a, b with
  | NumInt x, NumInt y => (x >? y)%Z
  | NumFloat x, NumFloat y => PrimFloat.ltb y x
  | NumInt x, NumFloat y => int_gt_float x y
  | NumFloat x, NumInt y => float_gt_int x y
  end.

(** [a > b] on values: a number against anything that is not a number is a
    [TypeError]. *)
Definition py_gt (a b : pyval) : outcome bool :=
  match as_num a, as_num b with
  | Some x, Some y => Returns (num_gt x y)
  | Some _, None | None, Some _ => Raises TypeError
  | None, None => Beyond
  end.

(** The builtin [max] on one iterable: the first item is the candidate, and a
    later item replaces it when [item > candidate]. *)
Fixpoint max_loop (maxitem : pyval) (rest : list pyval) : outcome pyval :=
  match rest with
  | [] => Returns maxitem
  | item :: rest' =>
      b <- py_gt item maxitem ;;
      max_loop (if b then item else maxitem) rest'
  end.

Definition py_max (v : pyval) : outcome pyval :=
  match v with
  | PyList [] => Raises ValueError
  | PyList (x :: xs) => max_loop x xs
  | PyStr _ | PyBytes _ | PyDict _ => Beyond
  | PyNone | PyBool _ | PyInt _ | PyFloat _ => Raises TypeError
  end.

(** The same loop on a list known to hold numbers only. *)
Fixpoint num_max (maxitem : pynum) (rest : list pynum) : pynum :=
  match rest with
  | [] => maxitem
  | item :: rest' => num_max (if num_gt item maxitem then item else maxitem) rest'
  end.

(** The statement [raise e]. No value of [pyval] is an exception class or
    instance, so the statement itself fails: "exceptions must derive from
    BaseException", a [TypeError]. *)
Definition py_raise {A : Type} (operand : pyval) : outcome A :=
  Raises TypeError.

(** *** What [json.dumps] accepts *)

Fixpoint serialisable (v : pyval) : bool :=
  match v with
  | PyBytes _ => false
  | PyList l => forallb serialisable l
  | PyDict d => forallb (fun kv => serialisable (snd kv)) d
  | _ => true
  end.

(** [json.dumps]: the text of a serialisable value, a [TypeError] on one that
    holds [bytes]. The text itself is left to [render]. *)
Definition json_dumps (render : pyval -> string) (v : pyval) : outcome pyval :=
  if serialisable v then Returns (PyStr (render v)) else Raises TypeError.

(** ** The [base64] module *)

Module Base64.

Local Open Scope N_scope.

Definition table_b2a_base64 : list byte :=
  list_byte_of_string
    "ABCDEFGHIJKLMNOPQRSTUVWXYZabcdefghijklmnopqrstuvwxyz0123456789+/".

Definition BASE64_PAD : byte := "="%byte.

(** The character of a 6-bit group. *)
Definition b2a (n : N) : byte := nth (N.to_nat n) table_b2a_base64 BASE64_PAD.

(** [table_a2b_base64]: the 6-bit group of an alphabet character, nothing for
    any other byte. *)
Definition a2b (c : byte) : option N :=
  let n := Byte.to_N c in
  if (65 <=? n) && (n <=? 90) then Some (n - 65)
  else if (97 <=? n) && (n <=? 122) then Some (n - 71)
  else if (48 <=? n) && (n <=? 57) then Some (n + 4)
  else if n =? 43 then Some 62
  else if n =? 47 then Some 63
  else None.

(** Storing into an [unsigned char] keeps the low eight bits. *)
Definition uchar (n : N) : byte :=
  match Byte.of_N (n mod 256) with
  | Some b => b
  | None => x00
  end.

(** The four 6-bit groups of three bytes [x y z], and the last group of a
    lone byte or pair, completed with zero bits. *)
Definition g1 (x : byte) : N := N.shiftr (Byte.to_N x) 2.

Definition g2 (x y : byte) : N :=
  N.lor (N.shiftl (N.land (Byte.to_N x) 3) 4) (N.shiftr (Byte.to_N y) 4).

Definition g3 (y z : byte) : N :=
  N.lor (N.shiftl (N.land (Byte.to_N y) 15) 2) (N.shiftr (Byte.to_N z) 6).

Definition g4 (z : byte) : N := N.land (Byte.to_N z) 63.

Definition g2_last (x : byte) : N := N.shiftl (N.land (Byte.to_N x) 3) 4.

Definition g3_last (y : byte) : N := N.shiftl (N.land (Byte.to_N y) 15) 2.

(** [binascii.b2a_base64(data, newline=False)]: three bytes give four
    characters; one or two bytes left over are padded with [=]. *)
Fixpoint b2a_base64 (data : list byte) : list byte :=
  match data with
  | [] => []
  | [x] => [b2a (g1 x); b2a (g2_last x); BASE64_PAD; BASE64_PAD]
  | [x; y] => [b2a (g1 x); b2a (g2 x y); b2a (g3_last y); BASE64_PAD]
  | x :: y :: z :: rest =>
      b2a (g1 x) :: b2a (g2 x y) :: b2a (g3 y z) :: b2a (g4 z) :: b2a_base64 rest
  end.

(** The decoder's loop state in [binascii.a2b_base64]. *)
Record a2b_state : Type := {
  quad_pos : N;
  leftchar : N;
  pads : N;
  bin_data : list byte
}.

Definition a2b_start : a2b_state :=
  {| quad_pos := 0; leftchar := 0; pads := 0; bin_data := [] |}.

(** One alphabet character, worth [this_ch], enters the current quad. *)
Definition a2b_shift (st : a2b_state) (this_ch : N) : a2b_state :=
  match quad_pos st with
  | 0%N =>
      {| quad_pos := 1; leftchar := this_ch; pads := 0; bin_data := bin_data st |}
  | 1%N =>
      {| quad_pos := 2;
         leftchar := N.land this_ch 15;
         pads := 0;
         bin_data :=
           bin_data st
           ++ [uchar (N.lor (N.shiftl (leftchar st) 2) (N.shiftr this_ch 4))] |}
  | 2%N =>
      {| quad_pos := 3;
         leftchar := N.land this_ch 3;
         pads := 0;
         bin_data :=
           bin_data st
           ++ [uchar (N.lor (N.shiftl (leftchar st) 4) (N.shiftr this_ch 2))] |}
  | _ =>
      {| quad_pos := 0;
         leftchar := 0;
         pads := 0;
         bin_data :=
           bin_data st ++ [uchar (N.lor (N.shiftl (leftchar st) 6) this_ch)] |}
  end.

(** [binascii.a2b_base64(data)] with [strict_mode] off, as [b64decode] calls
    it by default: a byte outside the alphabet is skipped; a [=] seen once a
    quad holds two characters counts as padding, and padding that completes
    the quad ends the decoding, whatever follows; input that stops inside a
    quad is an error. *)
Fixpoint a2b_loop (ascii_data : list byte) (st : a2b_state) : outcome (list byte) :=
  match ascii_data with
  | [] =>
      if (quad_pos st =? 0)%N then Returns (bin_data st) else Raises BinasciiError
  | this_ch :: rest =>
      if Byte.eqb this_ch BASE64_PAD then
        if (2 <=? quad_pos st)%N then
          if (4 <=? quad_pos st + (pads st + 1))%N then Returns (bin_data st)
          else
            a2b_loop rest
              {| quad_pos := quad_pos st;
                 leftchar := leftchar st;
                 pads := pads st + 1;
                 bin_data := bin_data st |}
        else a2b_loop rest st
      else
        match a2b this_ch with
        | None => a2b_loop rest st
        | Some v => a2b_loop rest (a2b_shift st v)
        end
  end.

Definition a2b_base64 (data : list byte) : outcome (list byte) :=
  a2b_loop data a2b_start.

Definition is_ascii (c : byte) : bool := (Byte.to_N c <? 128)%N.

(** [base64._bytes_from_decode_data]: a [str] must be ASCII. *)
Definition bytes_from_decode_data (s : pyval) : outcome (list byte) :=
  match s with
  | PyStr text =>
      let raw := list_byte_of_string text in
      if forallb is_ascii raw then Returns raw else Raises ValueError
  | PyBytes raw => Returns raw
  | _ => Raises TypeError
  end.

(** [base64.b64encode(s)] on a [bytes] object. *)
Definition b64encode (s : list byte) : list byte := b2a_base64 s.

(** [base64.b64decode(s)], with [validate] left at its default. *)
Definition b64decode (s : pyval) : outcome (list byte) :=
  raw <- bytes_from_decode_data s ;;
  a2b_base64 raw.

End Base64.

(** ** [lambda/SerializeImageData.py] *)

Module SerializeImageData.

(** What the handler touches outside its arguments: the file
    [/tmp/image.png] and standard output (one entry per [print], holding the
    keys printed). *)
Record world : Type := {
  tmp_image_png : option (list byte);
  stdout : list (list string)
}.

(** The S3 capability: the bytes of an object, or the exception the download
    raises. *)
Definition storage : Type := string -> string -> outcome (list byte).

Definition stateful (A : Type) : Type := world -> outcome A * world.

Definition ret {A : Type} (a : A) : stateful A := fun w => (Returns a, w).

Definition lift {A : Type} (c : outcome A) : stateful A := fun w => (c, w).

Definition sbind {A B : Type} (c : stateful A) (k : A -> stateful B) : stateful B :=
  fun w =>
    match c w with
    | (Returns a, w') => k a w'
    | (Raises e, w') => (Raises e, w')
    | (Beyond, w') => (Beyond, w')
    end.

Notation "x <~ c ;; k" := (sbind c (fun x => k))
  (at level 61, c at next level, right associativity).

(** [boto3.resource('s3').Bucket(bucket).download_file(key, "/tmp/image.png")]:
    the file is written only when the download succeeds. *)
Definition download_file (s3 : storage) (bucket key : pyval) : stateful unit :=
  fun w =>
    match bucket, key with
    | PyStr b, PyStr k =>
        match s3 b k with
        | Returns data =>
            (Returns tt, {| tmp_image_png := Some data; stdout := stdout w |})
        | Raises e => (Raises e, w)
        | Beyond => (Beyond, w)
        end
    | _, _ => (Raises (External "ParamValidationError"), w)
    end.

(** [open("/tmp/image.png", "rb")] and [f.read()]. *)
Definition read_image : stateful (list byte) :=
  fun w =>
    match tmp_image_png w with
    | Some data => (Returns data, w)
    | None => (Raises FileNotFoundError, w)
    end.

(** [print("Event:", event.keys())]. *)
Definition print_keys (event : pyval) : stateful unit :=
  fun w =>
    match event with
    | PyDict d =>
        (Returns tt,
         {| tmp_image_png := tmp_image_png w; stdout := stdout w ++ [map fst d] |})
    | _ => (Raises (External "AttributeError"), w)
    end.

Definition lambda_handler (s3 : storage) (event : pyval) : stateful pyval :=
  key <~ lift (getitem event "s3_key") ;;
  bucket <~ lift (getitem event "s3_bucket") ;;
  _ <~ download_file s3 bucket key ;;
  data <~ read_image ;;
  let image_data := Base64.b64encode data in
  _ <~ print_keys event ;;
  ret (PyDict
         [("statusCode", PyInt 200);
          ("body",
           PyDict
             [("image_data", PyBytes image_data);
              ("s3_bucket", bucket);
              ("s3_key", key);
              ("inferences", PyList [])])]).

End SerializeImageData.

(** ** [lambda/Classifier.py] *)

Module Classifier.

Definition ENDPOINT_NAME : string := "image-classification-2024-12-22-09-40-10-368".

(** The arguments of one [runtime.invoke_endpoint] call. *)
Record invocation : Type := {
  EndpointName : string;
  ContentType : string;
  Body : list byte
}.

(** What becomes of [json.loads(predictor['Body'].read().decode('utf-8'))]:
    the call itself raises ([Failed]); the body is not UTF-8 or not JSON and
    reading it raises ([Unreadable]); or the body is the JSON text of a value
    ([Document]). *)
Inductive response : Type :=
| Failed (e : exn)
| Unreadable (e : exn)
| Document (v : pyval).

(** The SageMaker runtime capability. *)
Definition endpoint : Type := invocation -> response.

(** Lines 39 to 49: with the parsed response in hand. *)
Definition respond (event inferences : pyval) : outcome pyval :=
  event <- setitem event "inferences" inferences ;;
  body <- getitem event "body" ;;
  image_data <- getitem body "image_data" ;;
  body <- getitem event "body" ;;
  s3_bucket <- getitem body "s3_bucket" ;;
  body <- getitem event "body" ;;
  s3_key <- getitem body "s3_key" ;;
  inferences <- getitem event "inferences" ;;
  Returns
    (PyDict
       [("statusCode", PyInt 200);
        ("body",
         PyDict
           [("image_data", image_data);
            ("s3_bucket", s3_bucket);
            ("s3_key", s3_key);
            ("inferences", inferences)])]).

(** The handler's outcome, together with the endpoint invocations it made,
    in order. *)
Definition lambda_handler (runtime : endpoint) (event : pyval)
  : outcome pyval * list invocation :=
  match (body <- getitem event "body" ;;
         data <- getitem body "image_data" ;;
         Base64.b64decode data) with
  | Returns image =>
      let call :=
        {| EndpointName := ENDPOINT_NAME; ContentType := "image/png"; Body := image |}
      in
      (match runtime call with
       | Failed e => Raises e
       | Unreadable e => Raises e
       | Document inferences => respond event inferences
       end,
       [call])
  | Raises e => (Raises e, [])
  | Beyond => (Beyond, [])
  end.

End Classifier.

(** ** [lambda/FilterConfidence.py] *)

Module FilterConfidence.

(** [THRESHOLD = .93], the binary64 value nearest to 0.93. *)
Definition THRESHOLD : float := 0.93%float.

Definition lambda_handler (render : pyval -> string) (event : pyval) : outcome pyval :=
  body <- getitem event "body" ;;
  inferences <- getitem body "inferences" ;;
  maximum <- py_max inferences ;;
  meets_threshold <- py_gt maximum (PyFloat THRESHOLD) ;;
  if (meets_threshold : bool) then
    text <- json_dumps render event ;;
    Returns (PyDict [("statusCode", PyInt 200); ("body", text)])
  else py_raise (PyStr "THRESHOLD_CONFIDENCE_NOT_MET").

End FilterConfidence.

(** ** The Envelope of the specification *)

(** The record threaded through the stages, with its four fields. *)
Record Envelope : Type := {
  image_payload : string;
  storage_bucket : string;
  storage_key : string;
  confidence_scores : list pynum
}.

(** The Envelope as the handlers carry it: a [dict] under the four keys. *)
Definition envelope_value (e : Envelope) : pyval :=
  PyDict
    [("image_data", PyStr (image_payload e));
     ("s3_bucket", PyStr (storage_bucket e));
     ("s3_key", PyStr (storage_key e));
     ("inferences", PyList (map num_value (confidence_scores e)))].

(** The event a stage after the Loader receives: the previous stage's
    result, status code and body. *)
Definition stage_event (e : Envelope) : pyval :=
  PyDict [("statusCode", PyInt 200); ("body", envelope_value e)].

(** The event of the Loader. *)
Definition loader_event (bucket key : string) : pyval :=
  PyDict [("s3_bucket", PyStr bucket); ("s3_key", PyStr key)].

(** A success result with the given body. *)
Definition success (body : pyval) : pyval :=
  PyDict [("statusCode", PyInt 200); ("body", body)].

(** The maximum of a score list as [max] finds it; none for the empty
    list. *)
Definition max_score (scores : list pynum) : option pynum :=
  match scores with
  | [] => None
  | x :: xs => Some (num_max x xs)
  end.

(** The Gate's failure on a low score: line 40,
    [raise("THRESHOLD_CONFIDENCE_NOT_MET")]. *)
Definition THRESHOLD_CONFIDENCE_NOT_MET : outcome pyval :=
  py_raise (PyStr "THRESHOLD_CONFIDENCE_NOT_MET").

(** *** The literal success shape, as the specification words it *)

Definition is_alphabet (c : byte) : bool :=
  match Base64.a2b c with
  | Some _ => true
  | None => false
  end.

Definition is_pad (c : byte) : bool := Byte.eqb c Base64.BASE64_PAD.

(** Valid base64 text (RFC 4648): groups of four alphabet characters, the
    last group ending in at most two [=]. *)
Fixpoint valid_base64 (s : list byte) : bool :=
  match s with
  | [] => true
  | [a; b; c; d] =>
      is_alphabet a && is_alphabet b
      && ((is_alphabet c && (is_alphabet d || is_pad d)) || (is_pad c && is_pad d))
  | a :: b :: c :: d :: rest =>
      is_alphabet a && is_alphabet b && is_alphabet c && is_alphabet d
      && valid_base64 rest
  | _ => false
  end.

Definition is_base64_string (v : pyval) : bool :=
  match v with
  | PyStr s => valid_base64 (list_byte_of_string s)
  | _ => false
  end.

Definition is_string (v : pyval) : bool :=
  match v with
  | PyStr _ => true
  | _ => false
  end.

Definition is_number (v : pyval) : bool :=
  match v with
  | PyInt _ | PyFloat _ => true
  | _ => false
  end.

Definition is_number_array (v : pyval) : bool :=
  match v with
  | PyList l => forallb is_number l
  | _ => false
  end.

Definition field_is (check : pyval -> bool) (d : list (string * pyval)) (key : string)
  : bool :=
  match lookup key d with
  | Some v => check v
  | None => false
  end.

(** [{ "statusCode": 200, "body": { "image_data": <base64 string>,
    "s3_bucket": <string>, "s3_key": <string>, "inferences": <array of
    numbers> } }]. *)
Definition literal_success_shape (result : pyval) : bool :=
  match result with
  | PyDict top =>
      (List.length top =? 2)%nat
      && field_is (fun v => match v with PyInt 200 => true | _ => false end) top "statusCode"
      && field_is
           (fun v =>
              match v with
              | PyDict body =>
                  (List.length body =? 4)%nat
                  && field_is is_base64_string body "image_data"
                  && field_is is_string body "s3_bucket"
                  && field_is is_string body "s3_key"
                  && field_is is_number_array body "inferences"
              | _ => false
              end)
           top "body"
  | _ => false
  end.

(** ** Sample inputs *)

Module Sample.

(** "Example 1" and "Example 2" of the specification. *)
Definition above : Envelope :=
  {| image_payload := "YQ==";
     storage_bucket := "imgs";
     storage_key := "scone.png";
     confidence_scores := [NumFloat 0.2; NumFloat 0.95; NumFloat 0.1] |}.

Definition at_threshold : Envelope :=
  {| image_payload := "YQ==";
     storage_bucket := "imgs";
     storage_key := "scone.png";
     confidence_scores := [NumFloat 0.5; NumFloat 0.93; NumFloat 0.4] |}.


(** Fresh from the Loader: no scores yet. *)
Definition unscored : Envelope :=
  {| image_payload := "YQ==";
     storage_bucket := "imgs";
     storage_key := "scone.png";
     confidence_scores := [] |}.



(** Fake capabilities. *)
Definition render : pyval -> string := fun _ => "{...}".

Definition scored (v : pyval) : Classifier.endpoint := fun _ => Classifier.Document v.

Definition s3 : SerializeImageData.storage :=
  fun bucket key =>
    if String.eqb bucket "imgs" && String.eqb key "scone.png"
    then Returns (list_byte_of_string "scone")
    else Raises (ClientError "404").

Definition fresh : SerializeImageData.world :=
  {| SerializeImageData.tmp_image_png := None; SerializeImageData.stdout := [] |}.

(** What the Loader returns for the object of [s3], and the world it
    leaves. *)
Definition loaded : pyval :=
  success
    (PyDict
       [("image_data", PyBytes (list_byte_of_string "c2NvbmU="));
        ("s3_bucket", PyStr "imgs");
        ("s3_key", PyStr "scone.png");
        ("inferences", PyList [])]).

Definition after_load : SerializeImageData.world :=
  {| SerializeImageData.tmp_image_png := Some (list_byte_of_string "scone");
     SerializeImageData.stdout := [["s3_bucket"; "s3_key"]] |}.

(** [unscored] once the endpoint has answered [[0.95, 0.05]]. *)
Definition classified : Envelope :=
  {| image_payload := "YQ==";
     storage_bucket := "imgs";
     storage_key := "scone.png";
     confidence_scores := [NumFloat 0.95; NumFloat 0.05] |}.

Definition call (image : string) : Classifier.invocation :=
  {| Classifier.EndpointName := Classifier.ENDPOINT_NAME;
     Classifier.ContentType := "image/png";
     Classifier.Body := list_byte_of_string image |}.

End Sample.

(** ** Enumerations used by the proofs *)

Definition all_bytes : list byte :=
  map (fun n => Base64.uchar (N.of_nat n)) (seq 0 256).

Definition all_sextets : list N := map N.of_nat (seq 0 64).

(** ** Further inputs and notions *)

(** A byte [b64decode] looks at: the pad, or a character of the alphabet. *)
Definition significant (c : byte) : bool := is_pad c || is_alphabet c.

(** The payload of an event, decoded: lines 30 and 31. *)
Definition decoded (event : pyval) : outcome (list byte) :=
  body <- getitem event "body" ;;
  data <- getitem body "image_data" ;;
  Base64.b64decode data.

(** The one invocation the Classifier makes for an image. *)
Definition request (image : list byte) : Classifier.invocation :=
  {| Classifier.EndpointName := Classifier.ENDPOINT_NAME;
     Classifier.ContentType := "image/png";
     Classifier.Body := image |}.

Module Case.

(** An object the sample store does not hold. *)
Definition missing : pyval := loader_event "imgs" "missing.png".

(** The payload [YQ==] with blanks between its characters. *)
Definition folded : Envelope :=
  {| image_payload := "Y Q = =";
     storage_bucket := "imgs";
     storage_key := "scone.png";
     confidence_scores := [] |}.

(** A payload cut inside a group of four. *)
Definition cut : Envelope :=
  {| image_payload := "c2Nvb";
     storage_bucket := "imgs";
     storage_key := "scone.png";
     confidence_scores := [] |}.

(** The payload [YQ==] with more text after its padding. *)
Definition trailed : Envelope :=
  {| image_payload := "YQ==c2NvbmU=";
     storage_bucket := "imgs";
     storage_key := "scone.png";
     confidence_scores := [] |}.

(** Scores led by a NaN. *)
Definition nan_first : Envelope :=
  {| image_payload := "YQ==";
     storage_bucket := "imgs";
     storage_key := "scone.png";
     confidence_scores := [NumFloat nan; NumFloat 0.99; NumInt 2] |}.




(** An endpoint that is down, and one that answers with text that is not
    JSON. *)
Definition down : Classifier.endpoint :=
  fun _ => Classifier.Failed (ClientError "ServiceUnavailable").

Definition garbled : Classifier.endpoint :=
  fun _ => Classifier.Unreadable (External "JSONDecodeError").

(** An event of the Classifier whose body has no [s3_bucket]. *)
Definition bucketless : pyval :=
  success (PyDict [("image_data", PyStr "YQ=="); ("s3_key", PyStr "scone.png")]).

End Case.

(** * Properties *)

(** ** Base64: decoding what was encoded *)

Module Base64Facts.

Import Base64.
Local Open Scope list_scope.
Local Open Scope N_scope.

Lemma uchar_to_N (b : byte) : uchar (Byte.to_N b) = b.
Proof.
  unfold uchar.
  rewrite N.mod_small by (pose proof (Byte.to_N_bounded b); lia).
  now rewrite Byte.of_to_N.
Qed.

(** A property checked on the 256 bytes holds of every byte. *)
Lemma every_byte (P : byte -> bool) :
  forallb P all_bytes = true -> forall b, P b = true.
Proof.
  intros H b. rewrite forallb_forall in H. apply H.
  rewrite <- (uchar_to_N b). unfold all_bytes.
  apply in_map_iff. exists (N.to_nat (Byte.to_N b)). split.
  - now rewrite N2Nat.id.
  - apply in_seq. pose proof (Byte.to_N_bounded b). lia.
Qed.

Lemma every_byte_pair (P : byte -> byte -> bool) :
  forallb (fun a => forallb (P a) all_bytes) all_bytes = true ->
  forall a b, P a b = true.
Proof.
  intros H a b.
  apply (every_byte (P a)).
  apply (every_byte (fun a => forallb (P a) all_bytes) H).
Qed.

Lemma every_sextet (P : N -> bool) :
  forallb P all_sextets = true -> forall n, n < 64 -> P n = true.
Proof.
  intros H n Hn. rewrite forallb_forall in H. apply H.
  unfold all_sextets. apply in_map_iff. exists (N.to_nat n). split.
  - now rewrite N2Nat.id.
  - apply in_seq. lia.
Qed.

(** The two tables are inverse to each other, and no alphabet character is
    the pad. *)
Lemma a2b_b2a (n : N) :
  n < 64 -> a2b (b2a n) = Some n /\ Byte.eqb (b2a n) BASE64_PAD = false.
Proof.
  intros Hn.
  assert (H : (match a2b (b2a n) with Some k => k =? n | None => false end
               && negb (Byte.eqb (b2a n) BASE64_PAD))%bool = true).
  { revert n Hn. apply every_sextet. vm_compute. reflexivity. }
  apply andb_true_iff in H. destruct H as [H1 H2].
  split.
  - destruct (a2b (b2a n)); [|discriminate].
    apply N.eqb_eq in H1. now subst.
  - now apply negb_true_iff.
Qed.

Lemma g1_lt x : g1 x < 64.
Proof.
  apply N.ltb_lt. revert x. apply every_byte. vm_compute. reflexivity.
Qed.

Lemma g2_lt x y : g2 x y < 64.
Proof.
  apply N.ltb_lt. revert x y. apply every_byte_pair. vm_compute. reflexivity.
Qed.

Lemma g3_lt y z : g3 y z < 64.
Proof.
  apply N.ltb_lt. revert y z. apply every_byte_pair. vm_compute. reflexivity.
Qed.

Lemma g4_lt z : g4 z < 64.
Proof.
  apply N.ltb_lt. revert z. apply every_byte. vm_compute. reflexivity.
Qed.

Lemma g2_last_lt x : g2_last x < 64.
Proof.
  apply N.ltb_lt. revert x. apply every_byte. vm_compute. reflexivity.
Qed.

Lemma g3_last_lt y : g3_last y < 64.
Proof.
  apply N.ltb_lt. revert y. apply every_byte. vm_compute. reflexivity.
Qed.

(** The bytes the decoder rebuilds from the groups. *)
Lemma first_byte x y :
  uchar (N.lor (N.shiftl (g1 x) 2) (N.shiftr (g2 x y) 4)) = x.
Proof.
  apply Byte.byte_dec_bl. revert x y.
  apply (every_byte_pair
           (fun x y => Byte.eqb (uchar (N.lor (N.shiftl (g1 x) 2) (N.shiftr (g2 x y) 4))) x)).
  vm_compute. reflexivity.
Qed.

Lemma first_byte_last x :
  uchar (N.lor (N.shiftl (g1 x) 2) (N.shiftr (g2_last x) 4)) = x.
Proof.
  apply Byte.byte_dec_bl. revert x.
  apply (every_byte
           (fun x => Byte.eqb (uchar (N.lor (N.shiftl (g1 x) 2) (N.shiftr (g2_last x) 4))) x)).
  vm_compute. reflexivity.
Qed.

Lemma g2_low x y : N.land (g2 x y) 15 = N.shiftr (Byte.to_N y) 4.
Proof.
  apply N.eqb_eq. revert x y.
  apply (every_byte_pair
           (fun x y => N.land (g2 x y) 15 =? N.shiftr (Byte.to_N y) 4)).
  vm_compute. reflexivity.
Qed.

Lemma g3_high y z : N.shiftr (g3 y z) 2 = N.land (Byte.to_N y) 15.
Proof.
  apply N.eqb_eq. revert y z.
  apply (every_byte_pair
           (fun y z => N.shiftr (g3 y z) 2 =? N.land (Byte.to_N y) 15)).
  vm_compute. reflexivity.
Qed.

Lemma g3_last_high y : N.shiftr (g3_last y) 2 = N.land (Byte.to_N y) 15.
Proof.
  apply N.eqb_eq. revert y.
  apply (every_byte (fun y => N.shiftr (g3_last y) 2 =? N.land (Byte.to_N y) 15)).
  vm_compute. reflexivity.
Qed.

Lemma g3_low y z : N.land (g3 y z) 3 = N.shiftr (Byte.to_N z) 6.
Proof.
  apply N.eqb_eq. revert y z.
  apply (every_byte_pair
           (fun y z => N.land (g3 y z) 3 =? N.shiftr (Byte.to_N z) 6)).
  vm_compute. reflexivity.
Qed.

Lemma second_byte y :
  uchar (N.lor (N.shiftl (N.shiftr (Byte.to_N y) 4) 4) (N.land (Byte.to_N y) 15)) = y.
Proof.
  apply Byte.byte_dec_bl. revert y.
  apply (every_byte
           (fun y =>
              Byte.eqb
                (uchar (N.lor (N.shiftl (N.shiftr (Byte.to_N y) 4) 4)
                          (N.land (Byte.to_N y) 15))) y)).
  vm_compute. reflexivity.
Qed.

Lemma third_byte z :
  uchar (N.lor (N.shiftl (N.shiftr (Byte.to_N z) 6) 6) (g4 z)) = z.
Proof.
  apply Byte.byte_dec_bl. revert z.
  apply (every_byte
           (fun z => Byte.eqb (uchar (N.lor (N.shiftl (N.shiftr (Byte.to_N z) 6) 6) (g4 z))) z)).
  vm_compute. reflexivity.
Qed.



(** The four positions of [a2b_shift]. *)
Lemma a2b_shift_0 (l p v : N) (out : list byte) :
  a2b_shift {| quad_pos := 0; leftchar := l; pads := p; bin_data := out |} v
  = {| quad_pos := 1; leftchar := v; pads := 0; bin_data := out |}.
Proof. reflexivity. Qed.

Lemma a2b_shift_1 (l p v : N) (out : list byte) :
  a2b_shift {| quad_pos := 1; leftchar := l; pads := p; bin_data := out |} v
  = {| quad_pos := 2;
       leftchar := N.land v 15;
       pads := 0;
       bin_data := out ++ [uchar (N.lor (N.shiftl l 2) (N.shiftr v 4))] |}.
Proof. reflexivity. Qed.

Lemma a2b_shift_2 (l p v : N) (out : list byte) :
  a2b_shift {| quad_pos := 2; leftchar := l; pads := p; bin_data := out |} v
  = {| quad_pos := 3;
       leftchar := N.land v 3;
       pads := 0;
       bin_data := out ++ [uchar (N.lor (N.shiftl l 4) (N.shiftr v 2))] |}.
Proof. reflexivity. Qed.

Lemma a2b_shift_3 (l p v : N) (out : list byte) :
  a2b_shift {| quad_pos := 3; leftchar := l; pads := p; bin_data := out |} v
  = {| quad_pos := 0;
       leftchar := 0;
       pads := 0;
       bin_data := out ++ [uchar (N.lor (N.shiftl l 6) v)] |}.
Proof. reflexivity. Qed.

(** Four characters of one encoded triple, read from the start of a quad. *)
Lemma a2b_loop_quad (x y z : byte) (rest : list byte) (out : list byte) :
  a2b_loop (b2a (g1 x) :: b2a (g2 x y) :: b2a (g3 y z) :: b2a (g4 z) :: rest)
    {| quad_pos := 0; leftchar := 0; pads := 0; bin_data := out |}
  = a2b_loop rest
      {| quad_pos := 0; leftchar := 0; pads := 0; bin_data := out ++ [x; y; z] |}.
Proof.
  destruct (a2b_b2a (g1 x) (g1_lt x)) as [A1 P1].
  destruct (a2b_b2a (g2 x y) (g2_lt x y)) as [A2 P2].
  destruct (a2b_b2a (g3 y z) (g3_lt y z)) as [A3 P3].
  destruct (a2b_b2a (g4 z) (g4_lt z)) as [A4 P4].
  cbn [a2b_loop]. rewrite P1, A1, P2, A2, P3, A3, P4, A4.
  rewrite a2b_shift_0, a2b_shift_1, a2b_shift_2, a2b_shift_3.
  rewrite first_byte, g2_low, g3_high, second_byte, g3_low, third_byte.
  rewrite <- !app_assoc. reflexivity.
Qed.

Lemma a2b_loop_last_one (x : byte) (out : list byte) :
  a2b_loop [b2a (g1 x); b2a (g2_last x); BASE64_PAD; BASE64_PAD]
    {| quad_pos := 0; leftchar := 0; pads := 0; bin_data := out |}
  = Returns (out ++ [x]).
Proof.
  destruct (a2b_b2a (g1 x) (g1_lt x)) as [A1 P1].
  destruct (a2b_b2a (g2_last x) (g2_last_lt x)) as [A2 P2].
  cbn [a2b_loop]. rewrite P1, A1, P2, A2.
  rewrite a2b_shift_0, a2b_shift_1, first_byte_last. reflexivity.
Qed.

Lemma a2b_loop_last_two (x y : byte) (out : list byte) :
  a2b_loop [b2a (g1 x); b2a (g2 x y); b2a (g3_last y); BASE64_PAD]
    {| quad_pos := 0; leftchar := 0; pads := 0; bin_data := out |}
  = Returns (out ++ [x; y]).
Proof.
  destruct (a2b_b2a (g1 x) (g1_lt x)) as [A1 P1].
  destruct (a2b_b2a (g2 x y) (g2_lt x y)) as [A2 P2].
  destruct (a2b_b2a (g3_last y) (g3_last_lt y)) as [A3 P3].
  cbn [a2b_loop]. rewrite P1, A1, P2, A2, P3, A3.
  rewrite a2b_shift_0, a2b_shift_1, a2b_shift_2.
  rewrite first_byte, g2_low, g3_last_high, second_byte.
  rewrite <- !app_assoc. reflexivity.
Qed.

(** Induction on a list three elements at a time. *)
Lemma list_ind3 {A : Type} (P : list A -> Prop) :
  P [] ->
  (forall x, P [x]) ->
  (forall x y, P [x; y]) ->
  (forall x y z l, P l -> P (x :: y :: z :: l)) ->
  forall l, P l.
Proof.
  intros H0 H1 H2 H3.
  fix IH 1.
  intros [|x [|y [|z l]]]; [exact H0 | apply H1 | apply H2 | apply H3, IH].
Qed.

Lemma a2b_loop_b2a_base64 (data : list byte) :
  forall out,
    a2b_loop (b2a_base64 data)
      {| quad_pos := 0; leftchar := 0; pads := 0; bin_data := out |}
    = Returns (out ++ data).
Proof.
  induction data as [|x|x y|x y z l IH] using list_ind3; intros out.
  - cbn. now rewrite app_nil_r.
  - apply a2b_loop_last_one.
  - apply a2b_loop_last_two.
  - cbn [b2a_base64]. rewrite a2b_loop_quad, IH, <- app_assoc. reflexivity.
Qed.

(** [b64decode(b64encode(data)) == data]. *)
Lemma b64decode_b64encode (data : list byte) :
  b64decode (PyBytes (b64encode data)) = Returns data.
Proof.
  unfold b64decode, b64encode, a2b_base64, a2b_start. cbn [bytes_from_decode_data bind].
  apply (a2b_loop_b2a_base64 data []).
Qed.

(** An alphabet character is ASCII and is not the pad. *)
Lemma alphabet_character (c : byte) :
  is_alphabet c = true ->
  is_ascii c = true /\ Byte.eqb c BASE64_PAD = false /\ exists v, a2b c = Some v.
Proof.
  intros Hc.
  assert (H : forall c, implb (is_alphabet c) (is_ascii c && negb (Byte.eqb c BASE64_PAD)) = true)
    by (apply every_byte; vm_compute; reflexivity).
  specialize (H c). rewrite Hc in H. cbn [implb] in H. apply andb_true_iff in H. destruct H as [H1 H2].
  repeat split; [exact H1 | now apply negb_true_iff |].
  unfold is_alphabet in Hc. destruct (a2b c) as [v|]; [now exists v | discriminate].
Qed.

Lemma a2b_shift_quad_pos (st : a2b_state) (v : N) :
  quad_pos st < 4 ->
  quad_pos (a2b_shift st v) = (quad_pos st + 1) mod 4.
Proof.
  intros Hq. unfold a2b_shift.
  destruct (quad_pos st) as [|[[|[]|]|[|[]|]|]] eqn:E; try reflexivity; lia.
Qed.

(** Alphabet characters that stop inside a quad: "Incorrect padding". *)
Lemma a2b_loop_incomplete (s : list byte) :
  forall st,
    forallb is_alphabet s = true ->
    quad_pos st < 4 ->
    (quad_pos st + N.of_nat (List.length s)) mod 4 <> 0 ->
    a2b_loop s st = Raises BinasciiError.
Proof.
  induction s as [|c s IH]; intros st Hs Hq Hlen.
  - cbn [a2b_loop]. cbn [List.length N.of_nat] in Hlen.
    rewrite N.add_0_r, N.mod_small in Hlen by exact Hq.
    apply N.eqb_neq in Hlen. now rewrite Hlen.
  - cbn [forallb] in Hs. apply andb_true_iff in Hs. destruct Hs as [Hc Hs].
    destruct (alphabet_character c Hc) as (_ & Hpad & v & Hv).
    cbn [a2b_loop]. rewrite Hpad, Hv.
    apply IH; [exact Hs | | ].
    + rewrite a2b_shift_quad_pos by exact Hq. apply N.mod_lt. discriminate.
    + rewrite a2b_shift_quad_pos by exact Hq.
      rewrite N.Div0.add_mod_idemp_l.
      replace (quad_pos st + 1 + N.of_nat (List.length s))
        with (quad_pos st + N.of_nat (List.length (c :: s))) by (cbn [List.length]; lia).
      exact Hlen.
Qed.

(** A payload of alphabet characters whose number is not a multiple of four
    makes [b64decode] raise. *)
Lemma b64decode_incomplete (text : string) :
  forallb is_alphabet (list_byte_of_string text) = true ->
  N.of_nat (List.length (list_byte_of_string text)) mod 4 <> 0 ->
  b64decode (PyStr text) = Raises BinasciiError.
Proof.
  intros Halpha Hlen.
  unfold b64decode, bytes_from_decode_data.
  assert (Hascii : forallb is_ascii (list_byte_of_string text) = true).
  { apply forallb_forall. intros c Hc.
    rewrite forallb_forall in Halpha.
    now destruct (alphabet_character c (Halpha c Hc)). }
  rewrite Hascii. cbn [bind]. unfold a2b_base64.
  apply a2b_loop_incomplete; [exact Halpha | reflexivity | exact Hlen].
Qed.

End Base64Facts.

(** ** The Gate *)

Section Gate.

Variable render : pyval -> string.

Lemma py_gt_nums (a b : pynum) :
  py_gt (num_value a) (num_value b) = Returns (num_gt a b).
Proof. destruct a, b; reflexivity. Qed.

Lemma max_loop_nums (xs : list pynum) :
  forall x, max_loop (num_value x) (map num_value xs) = Returns (num_value (num_max x xs)).
Proof.
  induction xs as [|y ys IH]; intros x; simpl.
  - reflexivity.
  - rewrite py_gt_nums. simpl.
    destruct (num_gt y x); apply IH.
Qed.


Lemma serialisable_scores (l : list pynum) :
  forallb serialisable (map num_value l) = true.
Proof.
  induction l as [|n l IH]; simpl; [reflexivity|].
  rewrite IH. now destruct n.
Qed.

Lemma serialisable_stage_event (e : Envelope) : serialisable (stage_event e) = true.
Proof.
  unfold stage_event, envelope_value. cbn [serialisable forallb snd andb].
  now rewrite serialisable_scores.
Qed.

Lemma stage_event_body (e : Envelope) :
  getitem (stage_event e) "body" = Returns (envelope_value e).
Proof. reflexivity. Qed.

Lemma envelope_inferences (e : Envelope) :
  getitem (envelope_value e) "inferences"
  = Returns (PyList (map num_value (confidence_scores e))).
Proof. reflexivity. Qed.

(** The handler on an Envelope that has scores: both branches of line 36. *)
Lemma gate_on_scores (e : Envelope) (x : pynum) (xs : list pynum) :
  confidence_scores e = x :: xs ->
  FilterConfidence.lambda_handler render (stage_event e)
  = if num_gt (num_max x xs) (NumFloat FilterConfidence.THRESHOLD)
    then Returns (success (PyStr (render (stage_event e))))
    else THRESHOLD_CONFIDENCE_NOT_MET.
Proof.
  intros Hs. unfold FilterConfidence.lambda_handler.
  rewrite stage_event_body. cbn [bind].
  rewrite envelope_inferences, Hs. cbn [bind map py_max].
  rewrite max_loop_nums. cbn [bind].
  change (PyFloat FilterConfidence.THRESHOLD)
    with (num_value (NumFloat FilterConfidence.THRESHOLD)).
  rewrite py_gt_nums. cbn [bind].
  destruct (num_gt _ _); [|reflexivity].
  unfold json_dumps. rewrite serialisable_stage_event. reflexivity.
Qed.

Lemma gate_on_max (e : Envelope) (m : pynum) :
  max_score (confidence_scores e) = Some m ->
  FilterConfidence.lambda_handler render (stage_event e)
  = if num_gt m (NumFloat FilterConfidence.THRESHOLD)
    then Returns (success (PyStr (render (stage_event e))))
    else THRESHOLD_CONFIDENCE_NOT_MET.
Proof.
  intros Hm.
  destruct (confidence_scores e) as [|x xs] eqn:Hs; [discriminate|].
  injection Hm as <-. now apply gate_on_scores.
Qed.

(** Whatever the event, a result of the handler is a status code and a
    text. *)
Lemma gate_result_is_text (event out : pyval) :
  FilterConfidence.lambda_handler render event = Returns out ->
  out = success (PyStr (render event)).
Proof.
  unfold FilterConfidence.lambda_handler, json_dumps, py_raise.
  destruct (getitem event "body") as [body| |]; cbn [bind]; try discriminate.
  destruct (getitem body "inferences") as [inferences| |]; cbn [bind]; try discriminate.
  destruct (py_max inferences) as [maximum| |]; cbn [bind]; try discriminate.
  destruct (py_gt maximum _) as [[|]| |]; cbn [bind]; try discriminate.
  destruct (serialisable event); cbn [bind]; try discriminate.
  now intros [= <-].
Qed.

End Gate.

(** ** The order of binary64 scores *)

Module FloatOrder.

Ltac cmp_cases :=
  repeat match goal with
  | |- context [Z.compare ?a ?b] => destruct (Z.compare_spec a b)
  | H : context [Z.compare ?a ?b] |- _ => destruct (Z.compare_spec a b)
  | |- context [Pos.compare_cont Eq ?a ?b] =>
      change (Pos.compare_cont Eq a b) with (Pos.compare a b);
      destruct (Pos.compare_spec a b)
  | H : context [Pos.compare_cont Eq ?a ?b] |- _ =>
      change (Pos.compare_cont Eq a b) with (Pos.compare a b) in H;
      destruct (Pos.compare_spec a b)
  end.

Ltac by_cases :=
  repeat match goal with s : bool |- _ => destruct s end;
  try discriminate; try reflexivity;
  intros; cmp_cases; simpl in *; try discriminate; try reflexivity; try lia.

(** [x <= o < i] leaves no room for [i < x]. *)
Lemma SFltb_chain (o x i : spec_float) :
  SFltb o x = false -> SFltb o i = true -> SFltb i x = false.
Proof.
  unfold SFltb, SFcompare.
  destruct o as [so|so| |so mo eo], x as [sx|sx| |sx mx ex], i as [si|si| |si mi ei];
    by_cases.
Qed.

(** [t < x <= m], with [m] a number, gives [t < m]. *)
Lemma SFltb_below (t x m : spec_float) :
  SFltb t x = true -> SFltb m x = false -> SFeqb m m = true -> SFltb t m = true.
Proof.
  unfold SFltb, SFeqb, SFcompare.
  destruct t as [st|st| |st mt et], x as [sx|sx| |sx mx ex], m as [sm|sm| |sm mm em];
    by_cases.
Qed.

Lemma SFltb_irrefl (x : spec_float) : SFltb x x = false.
Proof.
  unfold SFltb, SFcompare. destruct x as [s|s| |s m e]; by_cases.
Qed.

Lemma ltb_chain (o x i : float) :
  PrimFloat.ltb o x = false -> PrimFloat.ltb o i = true -> PrimFloat.ltb i x = false.
Proof. rewrite !ltb_spec. apply SFltb_chain. Qed.

Lemma ltb_below (t x m : float) :
  PrimFloat.ltb t x = true -> PrimFloat.ltb m x = false -> is_nan m = false ->
  PrimFloat.ltb t m = true.
Proof.
  unfold is_nan. rewrite !ltb_spec, eqb_spec. intros H1 H2 H3.
  apply negb_false_iff in H3. now apply (SFltb_below _ (Prim2SF x)).
Qed.

Lemma ltb_irrefl (x : float) : PrimFloat.ltb x x = false.
Proof. rewrite ltb_spec. apply SFltb_irrefl. Qed.

(** A candidate that is a number stays one. *)
Lemma ltb_not_nan (x y : float) : PrimFloat.ltb x y = true -> is_nan y = false.
Proof.
  unfold is_nan. rewrite ltb_spec, eqb_spec. unfold SFltb, SFeqb, SFcompare.
  destruct (Prim2SF x) as [sx|sx| |sx mx ex], (Prim2SF y) as [sy|sy| |sy my ey]; by_cases.
Qed.

Lemma SFltb_trans (a b c : spec_float) :
  SFltb a b = true -> SFltb b c = true -> SFltb a c = true.
Proof.
  unfold SFltb, SFcompare.
  destruct a as [sa|sa| |sa ma ea], b as [sb|sb| |sb mb eb], c as [sc|sc| |sc mc ec];
    by_cases.
Qed.

Lemma SFltb_asym (a b : spec_float) : SFltb a b = true -> SFltb b a = false.
Proof.
  unfold SFltb, SFcompare.
  destruct a as [sa|sa| |sa ma ea], b as [sb|sb| |sb mb eb]; by_cases.
Qed.

(** Floats that are equal as numbers stand alike to any third. *)
Lemma SFltb_eqb (t a b : spec_float) :
  SFeqb a b = true -> SFltb t a = SFltb t b.
Proof.
  unfold SFltb, SFeqb, SFcompare.
  destruct t as [st|st| |st mt et], a as [sa|sa| |sa ma ea], b as [sb|sb| |sb mb eb];
    by_cases.
Qed.

Lemma ltb_eqb (t a b : float) :
  PrimFloat.eqb a b = true -> PrimFloat.ltb t a = PrimFloat.ltb t b.
Proof. rewrite !ltb_spec, eqb_spec. apply SFltb_eqb. Qed.

Lemma ltb_trans (a b c : float) :
  PrimFloat.ltb a b = true -> PrimFloat.ltb b c = true -> PrimFloat.ltb a c = true.
Proof. rewrite !ltb_spec. apply SFltb_trans. Qed.

Lemma ltb_asym (a b : float) : PrimFloat.ltb a b = true -> PrimFloat.ltb b a = false.
Proof. rewrite !ltb_spec. apply SFltb_asym. Qed.

(** The loop of [max] over floats: the result is the candidate or above it,
    it is one of the floats, and none of the floats that follow exceeds it. *)
Lemma num_max_loop_floats (xs : list float) :
  forall c : float,
  exists m : float,
    num_max (NumFloat c) (map NumFloat xs) = NumFloat m
    /\ In m (c :: xs)
    /\ (m = c \/ PrimFloat.ltb c m = true)
    /\ (forall y, In y xs -> PrimFloat.ltb m y = false).
Proof.
  induction xs as [|z zs IH]; intros c.
  - exists c. simpl. repeat split; auto. intros y [].
  - cbn [map num_max num_gt].
    destruct (PrimFloat.ltb c z) eqn:Hcz.
    + destruct (IH z) as (m & Hm & Hin & Hup & Hub).
      assert (Hcm : PrimFloat.ltb c m = true).
      { destruct Hup as [-> | Hzm]; [exact Hcz | now apply (ltb_trans c z m)]. }
      exists m. repeat split.
      * exact Hm.
      * now right.
      * now right.
      * intros y [<- | Hy]; [|now apply Hub].
        destruct Hup as [-> | Hzm]; [apply ltb_irrefl | now apply ltb_asym].
    + destruct (IH c) as (m & Hm & Hin & Hup & Hub).
      exists m. repeat split.
      * exact Hm.
      * destruct Hin as [<- | Hin]; [now left | now right; right].
      * exact Hup.
      * intros y [<- | Hy]; [|now apply Hub].
        destruct Hup as [-> | Hcm]; [exact Hcz | now apply (ltb_chain c)].
Qed.

(** [max] of a list of floats: one of them, exceeded by none of them, and a
    number when the first one is. *)
Lemma num_max_floats (x : float) (xs : list float) :
  exists m : float,
    num_max (NumFloat x) (map NumFloat xs) = NumFloat m
    /\ In m (x :: xs)
    /\ (forall y, In y (x :: xs) -> PrimFloat.ltb m y = false)
    /\ (is_nan x = false -> is_nan m = false).
Proof.
  destruct (num_max_loop_floats xs x) as (m & Hm & Hin & Hup & Hub).
  exists m. repeat split; auto.
  - intros y [<- | Hy]; [|now apply Hub].
    destruct Hup as [-> | Hxm]; [apply ltb_irrefl | now apply ltb_asym].
  - intros Hx. destruct Hup as [-> | Hxm]; [exact Hx | now apply (ltb_not_nan x)].
Qed.

End FloatOrder.

(** With scores that are floats, the first of them a number: the Gate lets
    the Envelope pass exactly when some score is above the threshold. *)
Lemma gate_passes_iff_some_score_exceeds
  (render : pyval -> string) (e : Envelope) (x : float) (xs : list float) :
  confidence_scores e = map NumFloat (x :: xs) ->
  is_nan x = false ->
  returned (FilterConfidence.lambda_handler render (stage_event e)) = true
  <-> exists y, In y (x :: xs) /\ PrimFloat.ltb FilterConfidence.THRESHOLD y = true.
Proof.
  intros Hs Hx.
  destruct (FloatOrder.num_max_floats x xs) as (m & Hm & Hin & Hub & Hnan).
  rewrite (gate_on_max render e (NumFloat m)) by (rewrite Hs; cbn [map max_score]; now rewrite Hm).
  cbn [num_gt]. split.
  - destruct (PrimFloat.ltb FilterConfidence.THRESHOLD m) eqn:Hpass; [|discriminate].
    intros _. now exists m.
  - intros (y & Hy & Hhigh).
    rewrite (FloatOrder.ltb_below FilterConfidence.THRESHOLD y m Hhigh (Hub y Hy) (Hnan Hx)).
    reflexivity.
Qed.

(** Two float maxima that are equal as numbers ([==], so [0.0] and [-0.0]
    too) get the same decision. *)
Lemma gate_decision_on_equal_float_maxima
  (render : pyval -> string) (e1 e2 : Envelope) (m1 m2 : float) :
  max_score (confidence_scores e1) = Some (NumFloat m1) ->
  max_score (confidence_scores e2) = Some (NumFloat m2) ->
  PrimFloat.eqb m1 m2 = true ->
  returned (FilterConfidence.lambda_handler render (stage_event e1))
  = returned (FilterConfidence.lambda_handler render (stage_event e2)).
Proof.
  intros H1 H2 Heq.
  rewrite (gate_on_max render e1 _ H1), (gate_on_max render e2 _ H2).
  cbn [num_gt]. rewrite (FloatOrder.ltb_eqb _ m1 m2 Heq).
  destruct (PrimFloat.ltb _ m2); reflexivity.
Qed.



(** C2, on the code. Where the maximum is not above the threshold the handler
    never returns: it stops at line 40. What is raised there is a
    [TypeError], because the operand of [raise] is a [str]. *)
Theorem gate_rejection_raises_TypeError
  (render : pyval -> string) (e : Envelope) (m : pynum) :
  max_score (confidence_scores e) = Some m ->
  num_gt m (NumFloat FilterConfidence.THRESHOLD) = false ->
  FilterConfidence.lambda_handler render (stage_event e) = Raises TypeError
  /\ returned (FilterConfidence.lambda_handler render (stage_event e)) = false.
Proof.
  intros Hm Hlow. rewrite (gate_on_max render e m Hm), Hlow.
  split; reflexivity.
Qed.

Lemma gate_rejection_example :
  FilterConfidence.lambda_handler Sample.render (stage_event Sample.at_threshold)
  = Raises TypeError
  /\ returned (FilterConfidence.lambda_handler Sample.render (stage_event Sample.at_threshold))
     = false.
Proof.
  apply (gate_rejection_raises_TypeError
           Sample.render Sample.at_threshold (NumFloat 0.93)); reflexivity.
Defined.

(** A malformed envelope ends in the same exception class: a score list that
    holds a string, and a body that is a string (as the Gate's own result
    has it). *)
Lemma gate_malformed_envelope_raises_TypeError (render : pyval -> string) :
  FilterConfidence.lambda_handler render
    (success (PyDict [("inferences", PyList [PyFloat 0.5; PyStr "scone"])]))
  = Raises TypeError
  /\ FilterConfidence.lambda_handler render (success (PyStr "{...}")) = Raises TypeError.
Proof. split; reflexivity. Qed.

(** C7. For every Envelope whose [confidence_scores] is empty the Gate does
    not return: [max] raises [ValueError], which is not what line 40 raises. *)
Theorem gate_empty_scores_raises_ValueError
  (render : pyval -> string) (e : Envelope) :
  confidence_scores e = [] ->
  FilterConfidence.lambda_handler render (stage_event e) = Raises ValueError
  /\ FilterConfidence.lambda_handler render (stage_event e) <> THRESHOLD_CONFIDENCE_NOT_MET
  /\ returned (FilterConfidence.lambda_handler render (stage_event e)) = false.
Proof.
  intros Hs.
  assert (Hrun : FilterConfidence.lambda_handler render (stage_event e) = Raises ValueError).
  { unfold FilterConfidence.lambda_handler.
    rewrite stage_event_body. cbn [bind].
    rewrite envelope_inferences, Hs. reflexivity. }
  rewrite Hrun. repeat split. discriminate.
Qed.

Lemma gate_empty_scores_example :
  FilterConfidence.lambda_handler Sample.render (stage_event Sample.unscored)
  = Raises ValueError
  /\ FilterConfidence.lambda_handler Sample.render (stage_event Sample.unscored)
     <> THRESHOLD_CONFIDENCE_NOT_MET
  /\ returned (FilterConfidence.lambda_handler Sample.render (stage_event Sample.unscored))
     = false.
Proof.
  apply (gate_empty_scores_raises_ValueError Sample.render Sample.unscored).
  reflexivity.
Defined.






(** ** The Loader *)


(** The run of the Loader on an object the store holds. *)
Lemma loader_run
  (s3 : SerializeImageData.storage) (event : pyval) (bucket key : string)
  (data : list byte) (w : SerializeImageData.world) :
  getitem event "s3_key" = Returns (PyStr key) ->
  getitem event "s3_bucket" = Returns (PyStr bucket) ->
  s3 bucket key = Returns data ->
  fst (SerializeImageData.lambda_handler s3 event w)
  = Returns
      (success
         (PyDict
            [("image_data", PyBytes (Base64.b64encode data));
             ("s3_bucket", PyStr bucket);
             ("s3_key", PyStr key);
             ("inferences", PyList [])])).
Proof.
  intros Hkey Hbucket Hobject.
  unfold SerializeImageData.lambda_handler, SerializeImageData.sbind,
    SerializeImageData.lift, SerializeImageData.ret.
  rewrite Hkey, Hbucket.
  unfold SerializeImageData.download_file. rewrite Hobject.
  cbn [SerializeImageData.read_image SerializeImageData.tmp_image_png].
  destruct event; try discriminate. reflexivity.
Qed.

(** C5. For every bucket and key that resolve to a stored object, the
    Loader returns an Envelope whose [image_data] base64-decodes to exactly
    the bytes of the object, and whose [inferences] is the empty list. *)
Theorem loader_payload_decodes_to_object
  (s3 : SerializeImageData.storage) (event : pyval) (bucket key : string)
  (data : list byte) (w : SerializeImageData.world) :
  getitem event "s3_key" = Returns (PyStr key) ->
  getitem event "s3_bucket" = Returns (PyStr bucket) ->
  s3 bucket key = Returns data ->
  exists (out body image_data : pyval),
    fst (SerializeImageData.lambda_handler s3 event w) = Returns out
    /\ getitem out "body" = Returns body
    /\ getitem body "image_data" = Returns image_data
    /\ Base64.b64decode image_data = Returns data
    /\ getitem body "inferences" = Returns (PyList [])
    /\ getitem body "s3_bucket" = Returns (PyStr bucket)
    /\ getitem body "s3_key" = Returns (PyStr key).
Proof.
  intros Hkey Hbucket Hobject.
  eexists _, _, (PyBytes (Base64.b64encode data)).
  split; [apply (loader_run s3 event bucket key data w Hkey Hbucket Hobject)|].
  repeat split.
  apply Base64Facts.b64decode_b64encode.
Qed.

Lemma loader_example :
  exists (out body image_data : pyval),
    fst (SerializeImageData.lambda_handler Sample.s3
           (loader_event "imgs" "scone.png") Sample.fresh) = Returns out
    /\ getitem out "body" = Returns body
    /\ getitem body "image_data" = Returns image_data
    /\ Base64.b64decode image_data = Returns (list_byte_of_string "scone")
    /\ getitem body "inferences" = Returns (PyList [])
    /\ getitem body "s3_bucket" = Returns (PyStr "imgs")
    /\ getitem body "s3_key" = Returns (PyStr "scone.png").
Proof.
  apply (loader_payload_decodes_to_object
           Sample.s3 (loader_event "imgs" "scone.png") "imgs" "scone.png"
           (list_byte_of_string "scone") Sample.fresh);
    reflexivity.
Defined.

(** ** The Classifier *)

Lemma lookup_store_same (key : string) (x : pyval) (d : list (string * pyval)) :
  lookup key (store key x d) = Some x.
Proof.
  induction d as [|[k v] d IH]; simpl.
  - now rewrite String.eqb_refl.
  - destruct (String.eqb k key) eqn:E; simpl; rewrite E; [reflexivity | exact IH].
Qed.

Lemma lookup_store_other (key other : string) (x : pyval) (d : list (string * pyval)) :
  other <> key -> lookup other (store key x d) = lookup other d.
Proof.
  intros Hne.
  induction d as [|[k v] d IH]; simpl.
  - destruct (String.eqb key other) eqn:E; [|reflexivity].
    apply String.eqb_eq in E. congruence.
  - destruct (String.eqb k key) eqn:E; simpl.
    + apply String.eqb_eq in E. subst k.
      destruct (String.eqb key other) eqn:E'; [|reflexivity].
      apply String.eqb_eq in E'. congruence.
    + now rewrite IH.
Qed.

(** Lines 39 to 49 on an event that has a body with the three keys. *)
Lemma respond_echoes (event body image_data s3_bucket s3_key inferences : pyval) :
  getitem event "body" = Returns body ->
  getitem body "image_data" = Returns image_data ->
  getitem body "s3_bucket" = Returns s3_bucket ->
  getitem body "s3_key" = Returns s3_key ->
  Classifier.respond event inferences
  = Returns
      (success
         (PyDict
            [("image_data", image_data);
             ("s3_bucket", s3_bucket);
             ("s3_key", s3_key);
             ("inferences", inferences)])).
Proof.
  intros Hbody Himage Hbucket Hkey.
  destruct event as [| | | | | | |d]; try discriminate.
  unfold Classifier.respond. cbn [setitem bind].
  assert (Hbody' : getitem (PyDict (store "inferences" inferences d)) "body" = Returns body).
  { cbn [getitem] in *. rewrite lookup_store_other by discriminate. exact Hbody. }
  rewrite !Hbody'. cbn [bind]. rewrite Himage, Hbucket, Hkey. cbn [bind].
  cbn [getitem]. rewrite lookup_store_same. reflexivity.
Qed.

(** Any result of lines 39 to 49 echoes the three fields of the event. *)
Lemma respond_result (event inferences out : pyval) :
  Classifier.respond event inferences = Returns out ->
  exists (body image_data s3_bucket s3_key : pyval),
    getitem event "body" = Returns body
    /\ getitem body "image_data" = Returns image_data
    /\ getitem body "s3_bucket" = Returns s3_bucket
    /\ getitem body "s3_key" = Returns s3_key
    /\ out = success
               (PyDict
                  [("image_data", image_data);
                   ("s3_bucket", s3_bucket);
                   ("s3_key", s3_key);
                   ("inferences", inferences)]).
Proof.
  intros Hrun.
  destruct event as [| | | | | | |d]; try discriminate.
  assert (Hsame : forall k, k <> "inferences" ->
            getitem (PyDict (store "inferences" inferences d)) k = getitem (PyDict d) k).
  { intros k Hk. cbn [getitem]. now rewrite lookup_store_other. }
  unfold Classifier.respond in Hrun. cbn [setitem bind] in Hrun.
  rewrite (Hsame "body") in Hrun by discriminate.
  destruct (getitem (PyDict d) "body") as [body| |] eqn:Hbody; try discriminate.
  cbn [bind] in Hrun.
  destruct (getitem body "image_data") as [image_data| |] eqn:Himage; try discriminate.
  destruct (getitem body "s3_bucket") as [s3_bucket| |] eqn:Hbucket; try discriminate.
  destruct (getitem body "s3_key") as [s3_key| |] eqn:Hkey; try discriminate.
  cbn [bind getitem] in Hrun. rewrite lookup_store_same in Hrun.
  injection Hrun as <-.
  exists body, image_data, s3_bucket, s3_key. auto.
Qed.

(** The result of the Classifier, whatever the event, and the one invocation
    behind it. *)
Lemma classifier_result
  (runtime : Classifier.endpoint) (event out : pyval) (calls : list Classifier.invocation) :
  Classifier.lambda_handler runtime event = (Returns out, calls) ->
  exists (body image_data s3_bucket s3_key inferences : pyval) (image : list byte),
    getitem event "body" = Returns body
    /\ getitem body "image_data" = Returns image_data
    /\ getitem body "s3_bucket" = Returns s3_bucket
    /\ getitem body "s3_key" = Returns s3_key
    /\ Base64.b64decode image_data = Returns image
    /\ calls = [{| Classifier.EndpointName := Classifier.ENDPOINT_NAME;
                   Classifier.ContentType := "image/png";
                   Classifier.Body := image |}]
    /\ runtime {| Classifier.EndpointName := Classifier.ENDPOINT_NAME;
                  Classifier.ContentType := "image/png";
                  Classifier.Body := image |} = Classifier.Document inferences
    /\ out = success
               (PyDict
                  [("image_data", image_data);
                   ("s3_bucket", s3_bucket);
                   ("s3_key", s3_key);
                   ("inferences", inferences)]).
Proof.
  unfold Classifier.lambda_handler.
  destruct (getitem event "body") as [body| |] eqn:Hbody; cbn [bind]; try discriminate.
  destruct (getitem body "image_data") as [data| |] eqn:Hdata; cbn [bind]; try discriminate.
  destruct (Base64.b64decode data) as [image| |] eqn:Himage; try discriminate.
  destruct (runtime _) as [err|err|inferences] eqn:Hcall; try discriminate.
  intros [= Hrun <-].
  destruct (respond_result event inferences out Hrun)
    as (body' & image_data & s3_bucket & s3_key & Hb & Hi & Hk1 & Hk2 & ->).
  rewrite Hbody in Hb. injection Hb as <-.
  rewrite Hdata in Hi. injection Hi as <-.
  exists body, data, s3_bucket, s3_key, inferences, image. repeat split; auto.
Qed.

(** The run of the Classifier on an Envelope whose payload decodes and whose
    invocation is answered with a JSON document. *)
Lemma classifier_run
  (runtime : Classifier.endpoint) (e : Envelope) (image : list byte) (inferences : pyval) :
  Base64.b64decode (PyStr (image_payload e)) = Returns image ->
  runtime {| Classifier.EndpointName := Classifier.ENDPOINT_NAME;
             Classifier.ContentType := "image/png";
             Classifier.Body := image |} = Classifier.Document inferences ->
  Classifier.lambda_handler runtime (stage_event e)
  = (Returns
       (success
          (PyDict
             [("image_data", PyStr (image_payload e));
              ("s3_bucket", PyStr (storage_bucket e));
              ("s3_key", PyStr (storage_key e));
              ("inferences", inferences)])),
     [{| Classifier.EndpointName := Classifier.ENDPOINT_NAME;
         Classifier.ContentType := "image/png";
         Classifier.Body := image |}]).
Proof.
  intros Himage Hcall.
  unfold Classifier.lambda_handler.
  rewrite stage_event_body. cbn [bind].
  change (getitem (envelope_value e) "image_data") with (Returns (PyStr (image_payload e))).
  cbn [bind]. rewrite Himage, Hcall.
  rewrite (respond_echoes (stage_event e) (envelope_value e)
             (PyStr (image_payload e)) (PyStr (storage_bucket e)) (PyStr (storage_key e)));
    reflexivity.
Qed.

(** C6. Whenever the Classifier succeeds on an Envelope, its result is that
    Envelope with [inferences] replaced: [image_data], [s3_bucket] and
    [s3_key] are those of the input. *)
Theorem classifier_echoes_payload_bucket_key
  (runtime : Classifier.endpoint) (e : Envelope) (out : pyval)
  (calls : list Classifier.invocation) :
  Classifier.lambda_handler runtime (stage_event e) = (Returns out, calls) ->
  exists inferences : pyval,
    out = success
            (PyDict
               [("image_data", PyStr (image_payload e));
                ("s3_bucket", PyStr (storage_bucket e));
                ("s3_key", PyStr (storage_key e));
                ("inferences", inferences)]).
Proof.
  intros Hrun.
  destruct (classifier_result runtime (stage_event e) out calls Hrun)
    as (body & image_data & s3_bucket & s3_key & inferences & image
        & Hbody & Himage & Hbucket & Hkey & _ & _ & _ & ->).
  rewrite stage_event_body in Hbody. injection Hbody as <-.
  injection Himage as <-. injection Hbucket as <-. injection Hkey as <-.
  now exists inferences.
Qed.

Lemma classifier_echo_example :
  Classifier.lambda_handler (Sample.scored (PyList [PyFloat 0.95; PyFloat 0.05]))
    (stage_event Sample.unscored)
  = (Returns (stage_event Sample.classified), [Sample.call "a"])
  /\ exists inferences : pyval,
       stage_event Sample.classified
       = success
           (PyDict
              [("image_data", PyStr (image_payload Sample.unscored));
               ("s3_bucket", PyStr (storage_bucket Sample.unscored));
               ("s3_key", PyStr (storage_key Sample.unscored));
               ("inferences", inferences)]).
Proof.
  split; [reflexivity|].
  apply (classifier_echoes_payload_bucket_key
           (Sample.scored (PyList [PyFloat 0.95; PyFloat 0.05]))
           Sample.unscored (stage_event Sample.classified) [Sample.call "a"]).
  reflexivity.
Defined.

(** C8, as the claim has it, fails: an endpoint that answers with an empty
    list, or with a list of things that are not numbers, gets a success
    result carrying that list. *)
Lemma classifier_accepts_invalid_scores :
  fst (Classifier.lambda_handler (Sample.scored (PyList [])) (stage_event Sample.unscored))
  = Returns (stage_event Sample.unscored)
  /\ fst (Classifier.lambda_handler
            (Sample.scored (PyList [PyStr "scone"; PyNone]))
            (stage_event Sample.unscored))
     = Returns
         (success
            (PyDict
               [("image_data", PyStr "YQ==");
                ("s3_bucket", PyStr "imgs");
                ("s3_key", PyStr "scone.png");
                ("inferences", PyList [PyStr "scone"; PyNone])])).
Proof. split; reflexivity. Qed.

(** C8, amended. For every input Envelope whose payload decodes, whatever
    value the response of the inference capability parses to is returned as
    [inferences] of a success result: the Classifier does not inspect it. *)
Theorem classifier_returns_any_document
  (runtime : Classifier.endpoint) (e : Envelope) (image : list byte) (inferences : pyval) :
  Base64.b64decode (PyStr (image_payload e)) = Returns image ->
  runtime {| Classifier.EndpointName := Classifier.ENDPOINT_NAME;
             Classifier.ContentType := "image/png";
             Classifier.Body := image |} = Classifier.Document inferences ->
  fst (Classifier.lambda_handler runtime (stage_event e))
  = Returns
      (success
         (PyDict
            [("image_data", PyStr (image_payload e));
             ("s3_bucket", PyStr (storage_bucket e));
             ("s3_key", PyStr (storage_key e));
             ("inferences", inferences)])).
Proof.
  intros Himage Hcall.
  now rewrite (classifier_run runtime e image inferences Himage Hcall).
Qed.

Lemma classifier_document_example :
  fst (Classifier.lambda_handler (Sample.scored (PyList [])) (stage_event Sample.unscored))
  = Returns
      (success
         (PyDict
            [("image_data", PyStr (image_payload Sample.unscored));
             ("s3_bucket", PyStr (storage_bucket Sample.unscored));
             ("s3_key", PyStr (storage_key Sample.unscored));
             ("inferences", PyList [])])).
Proof.
  apply (classifier_returns_any_document
           (Sample.scored (PyList [])) Sample.unscored (list_byte_of_string "a") (PyList []));
    reflexivity.
Defined.




(** ** All three stages *)


(** The Loader's [image_data] is a [bytes] object, not a [str]. *)
Lemma loader_image_data_is_bytes :
  SerializeImageData.lambda_handler Sample.s3 (loader_event "imgs" "scone.png") Sample.fresh
  = (Returns Sample.loaded, Sample.after_load)
  /\ literal_success_shape Sample.loaded = false.
Proof. split; reflexivity. Qed.



(** * Further properties of the three handlers *)

(** ** The Loader, further *)

Section LoaderFacts.

Variable s3 : SerializeImageData.storage.

(** Every way the Loader can end, by the keys of the event and the answer of
    the store. *)
Lemma loader_cases (event : pyval) (w : SerializeImageData.world) :
  (exists err, (getitem event "s3_key" = Raises err
                \/ exists key, getitem event "s3_key" = Returns key
                               /\ getitem event "s3_bucket" = Raises err)
               /\ SerializeImageData.lambda_handler s3 event w = (Raises err, w))
  \/ (exists err key bucket,
         getitem event "s3_key" = Returns key
         /\ getitem event "s3_bucket" = Returns bucket
         /\ SerializeImageData.download_file s3 bucket key w = (Raises err, w)
         /\ SerializeImageData.lambda_handler s3 event w = (Raises err, w))
  \/ (exists key bucket,
         getitem event "s3_key" = Returns key
         /\ getitem event "s3_bucket" = Returns bucket
         /\ SerializeImageData.download_file s3 bucket key w = (Beyond, w)
         /\ SerializeImageData.lambda_handler s3 event w = (Beyond, w))
  \/ (exists d key bucket data,
         event = PyDict d
         /\ getitem event "s3_key" = Returns (PyStr key)
         /\ getitem event "s3_bucket" = Returns (PyStr bucket)
         /\ s3 bucket key = Returns data
         /\ SerializeImageData.lambda_handler s3 event w
            = (Returns
                 (success
                    (PyDict
                       [("image_data", PyBytes (Base64.b64encode data));
                        ("s3_bucket", PyStr bucket);
                        ("s3_key", PyStr key);
                        ("inferences", PyList [])])),
               {| SerializeImageData.tmp_image_png := Some data;
                  SerializeImageData.stdout :=
                    SerializeImageData.stdout w ++ [map fst d] |})).
Proof.
  unfold SerializeImageData.lambda_handler, SerializeImageData.sbind,
    SerializeImageData.lift, SerializeImageData.ret.
  destruct event as [| | | | | | |d];
    try (left; exists TypeError; split; [now left | reflexivity]).
  destruct (getitem (PyDict d) "s3_key") as [key|err|] eqn:Hkey.
  - destruct (getitem (PyDict d) "s3_bucket") as [bucket|err|] eqn:Hbucket.
    + unfold SerializeImageData.download_file.
      destruct bucket as [| | | |b| | |];
        try (right; left; exists (External "ParamValidationError"), key; eexists;
             repeat split; reflexivity).
      destruct key as [| | | |k| | |];
        try (right; left; exists (External "ParamValidationError"); do 2 eexists;
             repeat split; reflexivity).
      destruct (s3 b k) as [data|err|] eqn:Hobject.
      * right; right; right. exists d, k, b, data. repeat split; reflexivity || assumption.
      * right; left. exists err, (PyStr k), (PyStr b).
        rewrite Hobject. repeat split; reflexivity || assumption.
      * right; right; left. exists (PyStr k), (PyStr b).
        rewrite Hobject. repeat split; reflexivity || assumption.
    + left. exists err. split; [right; now exists key | reflexivity].
    + cbn [getitem] in Hbucket. destruct (lookup "s3_bucket" d); discriminate.
  - left. exists err. split; [now left | reflexivity].
  - cbn [getitem] in Hkey. destruct (lookup "s3_key" d); discriminate.
Qed.

End LoaderFacts.



(** X2. When the store raises on the bucket and key of the event, the Loader
    raises that very exception and returns no Envelope. *)
Theorem loader_surfaces_storage_error
  (s3 : SerializeImageData.storage) (event : pyval) (bucket key : string)
  (w : SerializeImageData.world) (err : exn) :
  getitem event "s3_key" = Returns (PyStr key) ->
  getitem event "s3_bucket" = Returns (PyStr bucket) ->
  s3 bucket key = Raises err ->
  SerializeImageData.lambda_handler s3 event w = (Raises err, w).
Proof.
  intros Hkey Hbucket Hobject.
  unfold SerializeImageData.lambda_handler, SerializeImageData.sbind,
    SerializeImageData.lift, SerializeImageData.download_file.
  now rewrite Hkey, Hbucket, Hobject.
Qed.

Lemma loader_storage_error_example :
  SerializeImageData.lambda_handler Sample.s3 Case.missing Sample.fresh
  = (Raises (ClientError "404"), Sample.fresh).
Proof.
  apply (loader_surfaces_storage_error
           Sample.s3 Case.missing "imgs" "missing.png" Sample.fresh (ClientError "404"));
    reflexivity.
Defined.



(** X4. What the Loader returns or raises does not depend on what
    [/tmp/image.png] held before the call, nor on earlier output: a file left
    by an earlier invocation is never read. *)
Theorem loader_ignores_earlier_file
  (s3 : SerializeImageData.storage) (event : pyval)
  (w1 w2 : SerializeImageData.world) :
  fst (SerializeImageData.lambda_handler s3 event w1)
  = fst (SerializeImageData.lambda_handler s3 event w2).
Proof.
  unfold SerializeImageData.lambda_handler, SerializeImageData.sbind,
    SerializeImageData.lift, SerializeImageData.ret.
  destruct (getitem event "s3_key") as [key| |]; try reflexivity.
  destruct (getitem event "s3_bucket") as [bucket| |]; try reflexivity.
  unfold SerializeImageData.download_file.
  destruct bucket; try reflexivity. destruct key; try reflexivity.
  destruct (s3 _ _); try reflexivity.
  cbn [SerializeImageData.read_image SerializeImageData.tmp_image_png].
  destruct event; reflexivity.
Qed.

(** ** The payload the Loader builds *)

Module PayloadFacts.

Import Base64.
Local Open Scope list_scope.

Lemma b2a_is_alphabet (n : N) : (n < 64)%N -> is_alphabet (b2a n) = true.
Proof.
  intros Hn. unfold is_alphabet.
  destruct (Base64Facts.a2b_b2a n Hn) as [-> _]. reflexivity.
Qed.



End PayloadFacts.



(** X6. No result of the Loader can be given to [json.dumps]: its
    [image_data] is a [bytes] object, and [json.dumps] raises [TypeError]. *)
Theorem loader_result_is_not_serialisable
  (s3 : SerializeImageData.storage) (event out : pyval)
  (w w' : SerializeImageData.world) (render : pyval -> string) :
  SerializeImageData.lambda_handler s3 event w = (Returns out, w') ->
  json_dumps render out = Raises TypeError.
Proof.
  intros Hrun.
  destruct (loader_cases s3 event w)
    as [(e & _ & H) | [(e & k & b & _ & _ & _ & H) | [(k & b & _ & _ & _ & H)
       | (d & k & b & data & Hd & _ & _ & _ & H)]]];
    rewrite H in Hrun; try discriminate.
  injection Hrun as <- <-. reflexivity.
Qed.

Lemma loader_result_not_serialisable_example :
  json_dumps Sample.render Sample.loaded = Raises TypeError.
Proof.
  apply (loader_result_is_not_serialisable
           Sample.s3 (loader_event "imgs" "scone.png") Sample.loaded
           Sample.fresh Sample.after_load Sample.render).
  reflexivity.
Defined.

(** ** The Classifier, further *)

Section ClassifierFacts.

Variable runtime : Classifier.endpoint.

(** The invocations of a run are fixed by the decoding alone. *)
Lemma classifier_calls (event : pyval) :
  snd (Classifier.lambda_handler runtime event)
  = match decoded event with
    | Returns image => [request image]
    | _ => []
    end.
Proof.
  unfold Classifier.lambda_handler. fold (decoded event).
  destruct (decoded event); reflexivity.
Qed.

Lemma classifier_on_decoded (event : pyval) (image : list byte) :
  decoded event = Returns image ->
  Classifier.lambda_handler runtime event
  = (match runtime (request image) with
     | Classifier.Failed e => Raises e
     | Classifier.Unreadable e => Raises e
     | Classifier.Document inferences => Classifier.respond event inferences
     end,
     [request image]).
Proof.
  intros Hd. unfold Classifier.lambda_handler. fold (decoded event).
  now rewrite Hd.
Qed.

Lemma decoded_stage_event (e : Envelope) :
  decoded (stage_event e) = Base64.b64decode (PyStr (image_payload e)).
Proof. reflexivity. Qed.

End ClassifierFacts.

(** X7. Whatever the event and the endpoint, the Classifier invokes the
    endpoint at most once, under the configured endpoint name and with
    content type [image/png], and the body it sends is the decoded
    [image_data] of the event. *)
Theorem classifier_invokes_once_with_decoded_payload
  (runtime : Classifier.endpoint) (event : pyval) (c : Classifier.invocation) :
  In c (snd (Classifier.lambda_handler runtime event)) ->
  snd (Classifier.lambda_handler runtime event) = [c]
  /\ Classifier.EndpointName c = Classifier.ENDPOINT_NAME
  /\ Classifier.ContentType c = "image/png"
  /\ exists body data : pyval,
       getitem event "body" = Returns body
       /\ getitem body "image_data" = Returns data
       /\ Base64.b64decode data = Returns (Classifier.Body c).
Proof.
  rewrite classifier_calls. unfold decoded.
  destruct (getitem event "body") as [body| |]; cbn [bind In]; try contradiction.
  destruct (getitem body "image_data") as [data| |] eqn:Hdata; cbn [bind In];
    try contradiction.
  destruct (Base64.b64decode data) as [image| |] eqn:Himage; cbn [In]; try contradiction.
  intros [<- | []]. repeat split. now exists body, data.
Qed.

Lemma classifier_invocation_example :
  snd (Classifier.lambda_handler Case.down (stage_event Sample.unscored))
  = [Sample.call "a"]
  /\ Classifier.EndpointName (Sample.call "a") = Classifier.ENDPOINT_NAME
  /\ Classifier.ContentType (Sample.call "a") = "image/png"
  /\ exists body data : pyval,
       getitem (stage_event Sample.unscored) "body" = Returns body
       /\ getitem body "image_data" = Returns data
       /\ Base64.b64decode data = Returns (Classifier.Body (Sample.call "a")).
Proof.
  apply (classifier_invokes_once_with_decoded_payload
           Case.down (stage_event Sample.unscored) (Sample.call "a")).
  left. reflexivity.
Defined.

(** X8. When the payload decodes and the endpoint fails, by raising or by
    answering with something that is not JSON, the Classifier raises that
    exception after its one invocation, and returns nothing. *)
Theorem classifier_surfaces_endpoint_failure
  (runtime : Classifier.endpoint) (event : pyval) (image : list byte) (err : exn) :
  decoded event = Returns image ->
  runtime (request image) = Classifier.Failed err
  \/ runtime (request image) = Classifier.Unreadable err ->
  Classifier.lambda_handler runtime event = (Raises err, [request image]).
Proof.
  intros Hd Hfail. rewrite (classifier_on_decoded runtime event image Hd).
  now destruct Hfail as [-> | ->].
Qed.

Lemma classifier_endpoint_failure_example :
  Classifier.lambda_handler Case.down (stage_event Sample.unscored)
  = (Raises (ClientError "ServiceUnavailable"), [request (list_byte_of_string "a")]).
Proof.
  apply (classifier_surfaces_endpoint_failure
           Case.down (stage_event Sample.unscored) (list_byte_of_string "a")
           (ClientError "ServiceUnavailable")).
  - reflexivity.
  - left. reflexivity.
Defined.

(** X9. A body without [s3_bucket], or with it but without [s3_key], is
    found out only after the endpoint has been invoked and has answered: the
    run ends in the [KeyError], with the invocation made. *)
Theorem classifier_checks_keys_after_invoking
  (runtime : Classifier.endpoint) (event body inferences : pyval)
  (image : list byte) (err : exn) :
  getitem event "body" = Returns body ->
  decoded event = Returns image ->
  runtime (request image) = Classifier.Document inferences ->
  getitem body "s3_bucket" = Raises err
  \/ (returned (getitem body "s3_bucket") = true /\ getitem body "s3_key" = Raises err) ->
  Classifier.lambda_handler runtime event = (Raises err, [request image]).
Proof.
  intros Hbody Hd Hcall Hmissing.
  rewrite (classifier_on_decoded runtime event image Hd), Hcall.
  f_equal.
  destruct event as [| | | | | | |d]; try discriminate.
  assert (Hbody' : getitem (PyDict (store "inferences" inferences d)) "body" = Returns body).
  { cbn [getitem] in *. rewrite lookup_store_other by discriminate. exact Hbody. }
  unfold Classifier.respond. cbn [setitem bind]. rewrite !Hbody'. cbn [bind].
  unfold decoded in Hd. rewrite Hbody in Hd. cbn [bind] in Hd.
  destruct (getitem body "image_data") as [data| |]; try discriminate. cbn [bind].
  destruct Hmissing as [-> | [Hbucket ->]]; [reflexivity|].
  destruct (getitem body "s3_bucket"); try discriminate. reflexivity.
Qed.

Lemma classifier_missing_bucket_example :
  Classifier.lambda_handler (Sample.scored (PyList [PyFloat 0.95])) Case.bucketless
  = (Raises (KeyError "s3_bucket"), [request (list_byte_of_string "a")]).
Proof.
  apply (classifier_checks_keys_after_invoking
           (Sample.scored (PyList [PyFloat 0.95])) Case.bucketless
           (PyDict [("image_data", PyStr "YQ=="); ("s3_key", PyStr "scone.png")])
           (PyList [PyFloat 0.95]) (list_byte_of_string "a") (KeyError "s3_bucket"));
    try reflexivity.
  left. reflexivity.
Defined.

(** X10. Classifying once more changes nothing: on its own result the
    Classifier makes the same invocation and returns that result again. *)
Theorem classifier_result_is_a_fixed_point
  (runtime : Classifier.endpoint) (event out : pyval)
  (calls : list Classifier.invocation) :
  Classifier.lambda_handler runtime event = (Returns out, calls) ->
  Classifier.lambda_handler runtime out = (Returns out, calls).
Proof.
  intros Hrun.
  destruct (classifier_result runtime event out calls Hrun)
    as (body & image_data & s3_bucket & s3_key & inferences & image
        & _ & _ & _ & _ & Himage & -> & Hcall & ->).
  assert (Hd : decoded
                 (success
                    (PyDict
                       [("image_data", image_data); ("s3_bucket", s3_bucket);
                        ("s3_key", s3_key); ("inferences", inferences)]))
               = Returns image) by exact Himage.
  rewrite (classifier_on_decoded runtime _ image Hd).
  change (request image)
    with {| Classifier.EndpointName := Classifier.ENDPOINT_NAME;
            Classifier.ContentType := "image/png";
            Classifier.Body := image |}.
  rewrite Hcall. reflexivity.
Qed.

Lemma classifier_fixed_point_example :
  Classifier.lambda_handler (Sample.scored (PyList [PyFloat 0.95; PyFloat 0.05]))
    (stage_event Sample.classified)
  = (Returns (stage_event Sample.classified), [Sample.call "a"]).
Proof.
  apply (classifier_result_is_a_fixed_point
           (Sample.scored (PyList [PyFloat 0.95; PyFloat 0.05]))
           (stage_event Sample.unscored)).
  reflexivity.
Defined.

(** ** What [b64decode] makes of a payload *)

Module DecodingFacts.

Import Base64.
Local Open Scope list_scope.

(** Bytes that are neither the pad nor of the alphabet are passed over. *)
Lemma a2b_loop_significant (s : list byte) :
  forall st, a2b_loop (filter significant s) st = a2b_loop s st.
Proof.
  induction s as [|c s IH]; intros st; [reflexivity|].
  cbn [filter]. unfold significant at 1, is_pad, is_alphabet.
  destruct (Byte.eqb c BASE64_PAD) eqn:Hpad; cbn [orb].
  - cbn [a2b_loop]. rewrite Hpad.
    destruct (2 <=? quad_pos st)%N; [|apply IH].
    destruct (4 <=? quad_pos st + (pads st + 1))%N; [reflexivity | apply IH].
  - destruct (a2b c) as [v|] eqn:Hv.
    + cbn [a2b_loop]. rewrite Hpad, Hv. apply IH.
    + cbn [a2b_loop]. rewrite Hpad, Hv. apply IH.
Qed.

Lemma a2b_base64_significant (s : list byte) :
  a2b_base64 (filter significant s) = a2b_base64 s.
Proof. apply a2b_loop_significant. Qed.

(** A lone byte or a pair, encoded, then anything: the padding ends the
    decoding. *)
Lemma a2b_loop_padded_one (x : byte) (out rest : list byte) :
  a2b_loop (b2a (g1 x) :: b2a (g2_last x) :: BASE64_PAD :: BASE64_PAD :: rest)
    {| quad_pos := 0; leftchar := 0; pads := 0; bin_data := out |}
  = Returns (out ++ [x]).
Proof.
  destruct (Base64Facts.a2b_b2a (g1 x) (Base64Facts.g1_lt x)) as [A1 P1].
  destruct (Base64Facts.a2b_b2a (g2_last x) (Base64Facts.g2_last_lt x)) as [A2 P2].
  cbn [a2b_loop]. rewrite P1, A1, P2, A2.
  rewrite Base64Facts.a2b_shift_0, Base64Facts.a2b_shift_1, Base64Facts.first_byte_last.
  reflexivity.
Qed.

Lemma a2b_loop_padded_two (x y : byte) (out rest : list byte) :
  a2b_loop (b2a (g1 x) :: b2a (g2 x y) :: b2a (g3_last y) :: BASE64_PAD :: rest)
    {| quad_pos := 0; leftchar := 0; pads := 0; bin_data := out |}
  = Returns (out ++ [x; y]).
Proof.
  destruct (Base64Facts.a2b_b2a (g1 x) (Base64Facts.g1_lt x)) as [A1 P1].
  destruct (Base64Facts.a2b_b2a (g2 x y) (Base64Facts.g2_lt x y)) as [A2 P2].
  destruct (Base64Facts.a2b_b2a (g3_last y) (Base64Facts.g3_last_lt y)) as [A3 P3].
  cbn [a2b_loop]. rewrite P1, A1, P2, A2, P3, A3.
  rewrite Base64Facts.a2b_shift_0, Base64Facts.a2b_shift_1, Base64Facts.a2b_shift_2.
  rewrite Base64Facts.first_byte, Base64Facts.g2_low, Base64Facts.g3_last_high,
    Base64Facts.second_byte.
  rewrite <- !app_assoc. reflexivity.
Qed.

Lemma a2b_loop_padded (data : list byte) :
  forall out rest,
    List.length data mod 3 <> 0 ->
    a2b_loop (b2a_base64 data ++ rest)
      {| quad_pos := 0; leftchar := 0; pads := 0; bin_data := out |}
    = Returns (out ++ data).
Proof.
  induction data as [|x|x y|x y z l IH] using Base64Facts.list_ind3;
    intros out rest Hlen.
  - now contradiction Hlen.
  - apply a2b_loop_padded_one.
  - apply a2b_loop_padded_two.
  - cbn [b2a_base64 app]. rewrite Base64Facts.a2b_loop_quad, IH, <- app_assoc.
    + reflexivity.
    + cbn [List.length] in Hlen.
      replace (S (S (S (List.length l)))) with (List.length l + 1 * 3) in Hlen by lia.
      now rewrite Nat.Div0.mod_add in Hlen.
Qed.

(** The characters of an encoding are ASCII. *)
Lemma b2a_is_ascii (n : N) : (n < 64)%N -> is_ascii (b2a n) = true.
Proof.
  intros Hn.
  now destruct (Base64Facts.alphabet_character _ (PayloadFacts.b2a_is_alphabet n Hn)).
Qed.

Lemma b2a_base64_ascii (data : list byte) : forallb is_ascii (b2a_base64 data) = true.
Proof.
  induction data as [|x|x y|x y z l IH] using Base64Facts.list_ind3.
  - reflexivity.
  - cbn [b2a_base64 forallb].
    rewrite !b2a_is_ascii by (apply Base64Facts.g1_lt || apply Base64Facts.g2_last_lt).
    reflexivity.
  - cbn [b2a_base64 forallb].
    rewrite !b2a_is_ascii
      by (apply Base64Facts.g1_lt || apply Base64Facts.g2_lt || apply Base64Facts.g3_last_lt).
    reflexivity.
  - cbn [b2a_base64 forallb].
    rewrite !b2a_is_ascii
      by (apply Base64Facts.g1_lt || apply Base64Facts.g2_lt || apply Base64Facts.g3_lt
          || apply Base64Facts.g4_lt).
    exact IH.
Qed.

End DecodingFacts.

(** X11. Characters of the payload that are neither of the base64 alphabet
    nor [=] (blanks, line breaks, punctuation) do not count: two ASCII
    payloads that agree once such characters are dropped lead to the same
    invocations of the endpoint. *)
Theorem classifier_passes_over_other_characters
  (runtime : Classifier.endpoint) (e1 e2 : Envelope) :
  forallb Base64.is_ascii (list_byte_of_string (image_payload e1)) = true ->
  forallb Base64.is_ascii (list_byte_of_string (image_payload e2)) = true ->
  filter significant (list_byte_of_string (image_payload e1))
  = filter significant (list_byte_of_string (image_payload e2)) ->
  snd (Classifier.lambda_handler runtime (stage_event e1))
  = snd (Classifier.lambda_handler runtime (stage_event e2)).
Proof.
  intros H1 H2 Hsame.
  rewrite !classifier_calls, !decoded_stage_event.
  unfold Base64.b64decode, Base64.bytes_from_decode_data.
  rewrite H1, H2. cbn [bind].
  rewrite <- (DecodingFacts.a2b_base64_significant (list_byte_of_string (image_payload e1))).
  rewrite <- (DecodingFacts.a2b_base64_significant (list_byte_of_string (image_payload e2))).
  now rewrite Hsame.
Qed.

Lemma classifier_other_characters_example :
  snd (Classifier.lambda_handler Case.down (stage_event Case.folded))
  = snd (Classifier.lambda_handler Case.down (stage_event Sample.unscored)).
Proof.
  apply (classifier_passes_over_other_characters Case.down Case.folded Sample.unscored);
    reflexivity.
Defined.

(** X12. A payload made of alphabet characters only, their number not a
    multiple of four, makes the Classifier raise [binascii.Error] without
    invoking the endpoint. *)
Theorem classifier_rejects_incomplete_group
  (runtime : Classifier.endpoint) (e : Envelope) :
  forallb is_alphabet (list_byte_of_string (image_payload e)) = true ->
  (N.of_nat (List.length (list_byte_of_string (image_payload e))) mod 4 <> 0)%N ->
  Classifier.lambda_handler runtime (stage_event e) = (Raises BinasciiError, []).
Proof.
  intros Halpha Hlen.
  unfold Classifier.lambda_handler. fold (decoded (stage_event e)).
  rewrite decoded_stage_event.
  now rewrite (Base64Facts.b64decode_incomplete (image_payload e) Halpha Hlen).
Qed.

Lemma classifier_incomplete_group_example :
  Classifier.lambda_handler Case.down (stage_event Case.cut) = (Raises BinasciiError, []).
Proof.
  apply (classifier_rejects_incomplete_group Case.down Case.cut).
  - reflexivity.
  - discriminate.
Defined.

(** X13. Once a payload has been decoded up to its padding, what follows is
    not read: the encoding of bytes whose number is not a multiple of three,
    followed by any ASCII text, makes the Classifier send exactly those
    bytes. *)
Theorem classifier_stops_at_padding
  (runtime : Classifier.endpoint) (e : Envelope) (data rest : list byte) :
  list_byte_of_string (image_payload e) = (Base64.b64encode data ++ rest)%list ->
  forallb Base64.is_ascii rest = true ->
  List.length data mod 3 <> 0 ->
  snd (Classifier.lambda_handler runtime (stage_event e)) = [request data].
Proof.
  intros Hpayload Hascii Hlen.
  rewrite classifier_calls, decoded_stage_event.
  unfold Base64.b64decode, Base64.bytes_from_decode_data.
  rewrite Hpayload, forallb_app, Hascii.
  unfold Base64.b64encode. rewrite DecodingFacts.b2a_base64_ascii. cbn [andb bind].
  unfold Base64.a2b_base64, Base64.a2b_start.
  now rewrite (DecodingFacts.a2b_loop_padded data [] rest Hlen).
Qed.

Lemma classifier_stops_at_padding_example :
  snd (Classifier.lambda_handler Case.down (stage_event Case.trailed))
  = [request (list_byte_of_string "a")].
Proof.
  apply (classifier_stops_at_padding
           Case.down Case.trailed (list_byte_of_string "a")
           (list_byte_of_string "c2NvbmU="));
    [reflexivity | reflexivity | discriminate].
Defined.

(** ** The Gate, further *)

(** X14. The Gate cannot be run on its own result: the body it returns is a
    text, and subscripting it with ["inferences"] is a [TypeError]. *)
Theorem gate_rejects_its_own_result
  (render render' : pyval -> string) (event out : pyval) :
  FilterConfidence.lambda_handler render event = Returns out ->
  FilterConfidence.lambda_handler render' out = Raises TypeError.
Proof.
  intros Hrun. apply gate_result_is_text in Hrun. subst out. reflexivity.
Qed.

Lemma gate_own_result_example :
  FilterConfidence.lambda_handler Sample.render (success (PyStr "{...}"))
  = Raises TypeError.
Proof.
  apply (gate_rejects_its_own_result
           Sample.render Sample.render (stage_event Sample.above)).
  reflexivity.
Defined.

(** X15. With scores that are floats, the first of them not a NaN, the
    maximum the Gate compares is a score that no score exceeds, and the Gate
    lets the Envelope pass exactly when some score is strictly above the
    threshold: a NaN further down the list changes nothing. *)
Theorem gate_passes_iff_a_score_is_above
  (render : pyval -> string) (e : Envelope) (x : float) (xs : list float) :
  confidence_scores e = map NumFloat (x :: xs) ->
  is_nan x = false ->
  (exists m : float,
      max_score (confidence_scores e) = Some (NumFloat m)
      /\ In m (x :: xs)
      /\ forall y, In y (x :: xs) -> PrimFloat.ltb m y = false)
  /\ (returned (FilterConfidence.lambda_handler render (stage_event e)) = true
      <-> exists y, In y (x :: xs) /\ PrimFloat.ltb FilterConfidence.THRESHOLD y = true).
Proof.
  intros Hs Hx.
  destruct (FloatOrder.num_max_floats x xs) as (m & Hm & Hin & Hub & Hnan).
  assert (Hmax : max_score (confidence_scores e) = Some (NumFloat m))
    by (rewrite Hs; cbn [map max_score]; now rewrite Hm).
  split; [now exists m|].
  rewrite (gate_on_max render e (NumFloat m) Hmax).
  cbn [num_gt]. split.
  - destruct (PrimFloat.ltb FilterConfidence.THRESHOLD m) eqn:Hpass; [|discriminate].
    intros _. now exists m.
  - intros (y & Hy & Hhigh).
    rewrite (FloatOrder.ltb_below FilterConfidence.THRESHOLD y m Hhigh (Hub y Hy) (Hnan Hx)).
    reflexivity.
Qed.

Lemma gate_a_score_is_above_example :
  (exists m : float,
      max_score (confidence_scores Sample.above) = Some (NumFloat m)
      /\ In m [0.2%float; 0.95%float; 0.1%float]
      /\ forall y, In y [0.2%float; 0.95%float; 0.1%float] -> PrimFloat.ltb m y = false)
  /\ (returned (FilterConfidence.lambda_handler Sample.render (stage_event Sample.above))
      = true
      <-> exists y,
            In y [0.2%float; 0.95%float; 0.1%float]
            /\ PrimFloat.ltb FilterConfidence.THRESHOLD y = true).
Proof.
  apply (gate_passes_iff_a_score_is_above
           Sample.render Sample.above 0.2%float [0.95%float; 0.1%float]);
    reflexivity.
Defined.

Module NanFacts.

Lemma is_nan_spec (x : float) : is_nan x = true -> Prim2SF x = S754_nan.
Proof.
  unfold is_nan. rewrite eqb_spec. unfold SFeqb, SFcompare.
  destruct (Prim2SF x) as [s|s| |s m e]; try reflexivity.
  - discriminate.
  - destruct s; discriminate.
  - destruct s; rewrite Z.compare_refl;
      change (Pos.compare_cont Eq m m) with (Pos.compare m m);
      rewrite Pos.compare_refl; discriminate.
Qed.

(** Nothing is above a NaN, and a NaN is above nothing. *)
Lemma num_gt_nan_r (a : pynum) (x : float) :
  is_nan x = true -> num_gt a (NumFloat x) = false.
Proof.
  intros Hx. apply is_nan_spec in Hx.
  destruct a as [z|y]; cbn [num_gt].
  - unfold int_gt_float, xreal_of_float. now rewrite Hx.
  - rewrite ltb_spec, Hx. reflexivity.
Qed.

Lemma num_gt_nan_l (x : float) (b : pynum) :
  is_nan x = true -> num_gt (NumFloat x) b = false.
Proof.
  intros Hx. apply is_nan_spec in Hx.
  destruct b as [z|y]; cbn [num_gt].
  - unfold float_gt_int, xreal_of_float. now rewrite Hx.
  - rewrite ltb_spec, Hx. unfold SFltb, SFcompare. now destruct (Prim2SF y).
Qed.

(** A NaN candidate is never replaced. *)
Lemma num_max_nan (x : float) (rest : list pynum) :
  is_nan x = true -> num_max (NumFloat x) rest = NumFloat x.
Proof.
  intros Hx. induction rest as [|a rest IH]; [reflexivity|].
  cbn [num_max]. now rewrite (num_gt_nan_r a x Hx).
Qed.

End NanFacts.

(** X16. A NaN as first score hides all the others: whatever numbers follow
    it, above the threshold or not, the Gate stops at line 40. *)
Theorem gate_nan_first_rejects
  (render : pyval -> string) (e : Envelope) (x : float) (rest : list pynum) :
  confidence_scores e = NumFloat x :: rest ->
  is_nan x = true ->
  FilterConfidence.lambda_handler render (stage_event e) = THRESHOLD_CONFIDENCE_NOT_MET.
Proof.
  intros Hs Hx.
  rewrite (gate_on_max render e (NumFloat x))
    by (rewrite Hs; cbn [max_score]; now rewrite NanFacts.num_max_nan).
  now rewrite (NanFacts.num_gt_nan_l x _ Hx).
Qed.

Lemma gate_nan_first_example :
  FilterConfidence.lambda_handler Sample.render (stage_event Case.nan_first)
  = THRESHOLD_CONFIDENCE_NOT_MET.
Proof.
  apply (gate_nan_first_rejects
           Sample.render Case.nan_first nan [NumFloat 0.99; NumInt 2]);
    reflexivity.
Defined.

Lemma max_loop_nums_then (xs : list pynum) (l : list pyval) :
  forall x,
    max_loop (num_value x) (map num_value xs ++ l) = max_loop (num_value (num_max x xs)) l.
Proof.
  induction xs as [|y ys IH]; intros x; [reflexivity|].
  cbn [map app max_loop num_max]. rewrite py_gt_nums. cbn [bind].
  destruct (num_gt y x); apply IH.
Qed.

Lemma as_num_num_value (n : pynum) : as_num (num_value n) = Some n.
Proof. now destruct n. Qed.

(** X17. A score list in which numbers are followed by something that is not
    a number ([None], a string, a list, an object), or that holds nothing but
    such a thing, makes the Gate raise [TypeError], the exception of line 40:
    the two cannot be told apart by their class. *)
Theorem gate_non_number_raises_TypeError
  (render : pyval -> string) (event body bad : pyval)
  (nums : list pynum) (rest : list pyval) :
  getitem event "body" = Returns body ->
  getitem body "inferences" = Returns (PyList (map num_value nums ++ bad :: rest)) ->
  as_num bad = None ->
  nums <> [] \/ rest = [] ->
  FilterConfidence.lambda_handler render event = Raises TypeError
  /\ FilterConfidence.lambda_handler render event = THRESHOLD_CONFIDENCE_NOT_MET.
Proof.
  intros Hbody Hinf Hbad Hcase.
  assert (Hrun : FilterConfidence.lambda_handler render event = Raises TypeError).
  { unfold FilterConfidence.lambda_handler.
    rewrite Hbody. cbn [bind]. rewrite Hinf. cbn [bind].
    destruct nums as [|x xs].
    - destruct Hcase as [Hnums | ->]; [congruence|].
      cbn [map app py_max max_loop bind]. unfold py_gt. now rewrite Hbad.
    - cbn [map app py_max]. rewrite max_loop_nums_then.
      cbn [max_loop]. unfold py_gt at 1. now rewrite Hbad, as_num_num_value. }
  split; [exact Hrun | rewrite Hrun; reflexivity].
Qed.

Lemma gate_non_number_example :
  FilterConfidence.lambda_handler Sample.render
    (success (PyDict [("inferences", PyList [PyFloat 0.99; PyNone])]))
  = Raises TypeError
  /\ FilterConfidence.lambda_handler Sample.render
       (success (PyDict [("inferences", PyList [PyFloat 0.99; PyNone])]))
     = THRESHOLD_CONFIDENCE_NOT_MET.
Proof.
  apply (gate_non_number_raises_TypeError
           Sample.render
           (success (PyDict [("inferences", PyList [PyFloat 0.99; PyNone])]))
           (PyDict [("inferences", PyList [PyFloat 0.99; PyNone])])
           PyNone [NumFloat 0.99] []);
    try reflexivity.
  left. discriminate.
Defined.





(** ** The stages one after the other *)

(** X20. The Classifier and then the Gate: when the payload decodes and the
    endpoint answers with a non-empty list of numbers, the Gate run on the
    Classifier's result decides on the maximum of that list alone, whatever
    scores the Envelope carried before. *)
Theorem classifier_then_gate
  (runtime : Classifier.endpoint) (render : pyval -> string) (e : Envelope)
  (image : list byte) (scores : list pynum) (m : pynum) :
  Base64.b64decode (PyStr (image_payload e)) = Returns image ->
  runtime (request image) = Classifier.Document (PyList (map num_value scores)) ->
  max_score scores = Some m ->
  exists out : pyval,
    fst (Classifier.lambda_handler runtime (stage_event e)) = Returns out
    /\ FilterConfidence.lambda_handler render out
       = if num_gt m (NumFloat FilterConfidence.THRESHOLD)
         then Returns (success (PyStr (render out)))
         else THRESHOLD_CONFIDENCE_NOT_MET.
Proof.
  intros Himage Hcall Hm.
  exists (stage_event
            {| image_payload := image_payload e;
               storage_bucket := storage_bucket e;
               storage_key := storage_key e;
               confidence_scores := scores |}).
  split.
  - now rewrite (classifier_run runtime e image _ Himage Hcall).
  - now apply gate_on_max.
Qed.

Lemma classifier_then_gate_example :
  exists out : pyval,
    fst (Classifier.lambda_handler (Sample.scored (PyList [PyFloat 0.95; PyFloat 0.05]))
           (stage_event Sample.at_threshold))
    = Returns out
    /\ FilterConfidence.lambda_handler Sample.render out
       = if num_gt (NumFloat 0.95) (NumFloat FilterConfidence.THRESHOLD)
         then Returns (success (PyStr (Sample.render out)))
         else THRESHOLD_CONFIDENCE_NOT_MET.
Proof.
  apply (classifier_then_gate
           (Sample.scored (PyList [PyFloat 0.95; PyFloat 0.05])) Sample.render
           Sample.at_threshold (list_byte_of_string "a")
           [NumFloat 0.95; NumFloat 0.05] (NumFloat 0.95));
    reflexivity.
Defined.

(** X21. The Loader and then the Classifier, one called on the result of the
    other: the body sent to the endpoint is, byte for byte, the object the
    store holds. *)
Theorem loader_then_classifier_sends_the_object
  (s3 : SerializeImageData.storage) (runtime : Classifier.endpoint)
  (event : pyval) (bucket key : string) (data : list byte)
  (w : SerializeImageData.world) :
  getitem event "s3_key" = Returns (PyStr key) ->
  getitem event "s3_bucket" = Returns (PyStr bucket) ->
  s3 bucket key = Returns data ->
  exists out : pyval,
    fst (SerializeImageData.lambda_handler s3 event w) = Returns out
    /\ snd (Classifier.lambda_handler runtime out) = [request data].
Proof.
  intros Hkey Hbucket Hobject.
  eexists. split; [apply (loader_run s3 event bucket key data w Hkey Hbucket Hobject)|].
  rewrite classifier_calls.
  change (decoded
            (success
               (PyDict
                  [("image_data", PyBytes (Base64.b64encode data));
                   ("s3_bucket", PyStr bucket);
                   ("s3_key", PyStr key);
                   ("inferences", PyList [])])))
    with (Base64.b64decode (PyBytes (Base64.b64encode data))).
  now rewrite Base64Facts.b64decode_b64encode.
Qed.

Lemma loader_then_classifier_example :
  exists out : pyval,
    fst (SerializeImageData.lambda_handler Sample.s3
           (loader_event "imgs" "scone.png") Sample.fresh) = Returns out
    /\ snd (Classifier.lambda_handler Case.down out)
       = [request (list_byte_of_string "scone")].
Proof.
  apply (loader_then_classifier_sends_the_object
           Sample.s3 Case.down (loader_event "imgs" "scone.png") "imgs" "scone.png"
           (list_byte_of_string "scone") Sample.fresh);
    reflexivity.
Defined.

(** X22. The three handlers called one on the result of the other never get
    past the Gate: the [image_data] of the Loader is a [bytes] object, the
    Classifier hands it on, and the Gate, where the maximum is above the
    threshold, fails in [json.dumps]; where it is not, at line 40. Either way
    a [TypeError]. *)
Theorem in_process_pipeline_ends_in_TypeError
  (s3 : SerializeImageData.storage) (runtime : Classifier.endpoint)
  (render : pyval -> string) (event loaded classified : pyval)
  (w w' : SerializeImageData.world) (calls : list Classifier.invocation)
  (body : pyval) (scores : list pynum) :
  SerializeImageData.lambda_handler s3 event w = (Returns loaded, w') ->
  Classifier.lambda_handler runtime loaded = (Returns classified, calls) ->
  getitem classified "body" = Returns body ->
  getitem body "inferences" = Returns (PyList (map num_value scores)) ->
  scores <> [] ->
  FilterConfidence.lambda_handler render classified = Raises TypeError.
Proof.
  intros Hload Hclassify Hbody Hinf Hscores.
  destruct (loader_cases s3 event w)
    as [(e & _ & H) | [(e & k & b & _ & _ & _ & H) | [(k & b & _ & _ & _ & H)
       | (d & k & b & data & _ & _ & _ & _ & H)]]];
    rewrite H in Hload; try discriminate.
  injection Hload as <- <-.
  destruct (classifier_result runtime _ classified calls Hclassify)
    as (body' & image_data & s3_bucket & s3_key & inferences & image
        & Hb & Hi & _ & _ & _ & _ & _ & ->).
  injection Hb as <-. injection Hi as <-.
  injection Hbody as <-. injection Hinf as ->.
  destruct scores as [|x xs]; [congruence|].
  unfold FilterConfidence.lambda_handler.
  cbn [success getitem lookup String.eqb Ascii.eqb Bool.eqb bind map py_max].
  rewrite max_loop_nums. cbn [bind].
  change (PyFloat FilterConfidence.THRESHOLD)
    with (num_value (NumFloat FilterConfidence.THRESHOLD)).
  rewrite py_gt_nums. cbn [bind].
  destruct (num_gt _ _); reflexivity.
Qed.

Lemma in_process_pipeline_example :
  FilterConfidence.lambda_handler Sample.render
    (success
       (PyDict
          [("image_data", PyBytes (list_byte_of_string "c2NvbmU="));
           ("s3_bucket", PyStr "imgs");
           ("s3_key", PyStr "scone.png");
           ("inferences", PyList [PyFloat 0.95; PyFloat 0.05])]))
  = Raises TypeError.
Proof.
  apply (in_process_pipeline_ends_in_TypeError
           Sample.s3 (Sample.scored (PyList [PyFloat 0.95; PyFloat 0.05])) Sample.render
           (loader_event "imgs" "scone.png") Sample.loaded
           (success
              (PyDict
                 [("image_data", PyBytes (list_byte_of_string "c2NvbmU="));
                  ("s3_bucket", PyStr "imgs");
                  ("s3_key", PyStr "scone.png");
                  ("inferences", PyList [PyFloat 0.95; PyFloat 0.05])]))
           Sample.fresh Sample.after_load
           [request (list_byte_of_string "scone")]
           (PyDict
              [("image_data", PyBytes (list_byte_of_string "c2NvbmU="));
               ("s3_bucket", PyStr "imgs");
               ("s3_key", PyStr "scone.png");
               ("inferences", PyList [PyFloat 0.95; PyFloat 0.05])])
           [NumFloat 0.95; NumFloat 0.05]);
    try reflexivity.
  discriminate.
Defined.
